(** * BinaryClock: a shallow embedding of [BinaryClock.ino]

    The sketch is a single-threaded tick loop over global variables.  The
    globals become the fields of one record [State] that every function
    takes and returns; the five push buttons are the per-tick [Inputs];
    the LED pins and the LCD are written through [digitalWrite] and the
    [lcd_*] operations, which record what they do in the state.

    Conventions.
    - [int] on the Arduino MEGA is a 16-bit two's complement integer.  It is
      modelled as [Z]; every [++], [--], [+=], [-=] and [+] of the source
      goes through [int_wrap].  [%] is C++ truncating remainder, [Z.rem].
    - A button level is sampled once per tick: the two [digitalRead] calls
      of one [if ... else if ...] chain see the same level.
    - [micros] and [delayMicroseconds] only pace the loop and touch no
      variable; they are left out.  The unused global [f1Toggle] is left
      out too. *)

From Stdlib Require Import ZArith Lia List Bool String.
From stdpp Require Import base tactics option list gmap.

Local Open Scope string_scope.
Local Open Scope list_scope.
Local Open Scope Z_scope.

(** ** Machine integers *)

Definition int_wrap (z : Z) : Z := (z + 32768) mod 65536 - 32768.
Definition int_add (a b : Z) : Z := int_wrap (a + b).
Definition int_sub (a b : Z) : Z := int_wrap (a - b).
Definition int_rem (a b : Z) : Z := Z.rem a b.

(** [bitRead(value, bit)] of the Arduino core: [((value) >> (bit)) & 0x01]. *)
Definition bitRead (value bit : Z) : Z := Z.land (Z.shiftr value bit) 1.

(** ** Constants of the sketch *)

Definition TICKRATE : Z := 8.
Definition HIGH : Z := 1.
Definition LOW : Z := 0.

Definition lowestPin : Z := 22.
Definition highestPin : Z := 38.
Definition lowestSecPin : Z := lowestPin.
Definition lowestMinPin : Z := lowestSecPin + 6.
Definition lowestHourPin : Z := lowestMinPin + 6.

Definition toggleButtonPin : Z := 9.
Definition f1ButtonPin : Z := 10.
Definition f2ButtonPin : Z := 7.
Definition f3ButtonPin : Z := 8.
Definition setButtonPin : Z := 6.

(** ** Data *)

Record timeStruct := mkTime {
  hours : Z;
  minutes : Z;
  seconds : Z;
  milliseconds : Z
}.

Definition set_hours (v : Z) (t : timeStruct) : timeStruct :=
  mkTime v (minutes t) (seconds t) (milliseconds t).
Definition set_minutes (v : Z) (t : timeStruct) : timeStruct :=
  mkTime (hours t) v (seconds t) (milliseconds t).
Definition set_seconds (v : Z) (t : timeStruct) : timeStruct :=
  mkTime (hours t) (minutes t) v (milliseconds t).
Definition set_milliseconds (v : Z) (t : timeStruct) : timeStruct :=
  mkTime (hours t) (minutes t) (seconds t) v.

(** What the sketch sends to its peripherals, in order. *)
Inductive Output :=
| DigitalWrite (pin : Z) (level : bool)
| LcdSetCursor (col row : Z)
| LcdPrint (text : string)
| LcdPrintInt (n : Z).

(** The levels of the five button pins during one tick ([true] is HIGH). *)
Record Inputs := mkInputs {
  setButton : bool;
  toggleButton : bool;
  f1Button : bool;
  f2Button : bool;
  f3Button : bool
}.

Definition digitalRead (inp : Inputs) (pin : Z) : Z :=
  Z.b2z (if pin =? setButtonPin then setButton inp
         else if pin =? toggleButtonPin then toggleButton inp
         else if pin =? f1ButtonPin then f1Button inp
         else if pin =? f2ButtonPin then f2Button inp
         else if pin =? f3ButtonPin then f3Button inp
         else false).

(** The globals, the level last written to each pin, and the output log. *)
Record State := mkState {
  timeOfDay : timeStruct;
  stopWatchTime : timeStruct;
  timer : timeStruct;
  modeNumber : Z;
  toggleButtonRelease : Z;
  f1ButtonRelease : Z;
  f2ButtonRelease : Z;
  f3ButtonRelease : Z;
  setButtonRelease : Z;
  increment : Z;
  segment : Z;
  isSettingTime : Z;
  isStopwatchCounting : Z;
  isTimerCounting : Z;
  flash : Z;
  pins : gmap Z bool;
  out : list Output
}.

Definition with_timeOfDay (v : timeStruct) (s : State) : State :=
  mkState v (stopWatchTime s) (timer s) (modeNumber s) (toggleButtonRelease s)
    (f1ButtonRelease s) (f2ButtonRelease s) (f3ButtonRelease s) (setButtonRelease s)
    (increment s) (segment s) (isSettingTime s) (isStopwatchCounting s)
    (isTimerCounting s) (flash s) (pins s) (out s).
Definition with_stopWatchTime (v : timeStruct) (s : State) : State :=
  mkState (timeOfDay s) v (timer s) (modeNumber s) (toggleButtonRelease s)
    (f1ButtonRelease s) (f2ButtonRelease s) (f3ButtonRelease s) (setButtonRelease s)
    (increment s) (segment s) (isSettingTime s) (isStopwatchCounting s)
    (isTimerCounting s) (flash s) (pins s) (out s).
Definition with_timer (v : timeStruct) (s : State) : State :=
  mkState (timeOfDay s) (stopWatchTime s) v (modeNumber s) (toggleButtonRelease s)
    (f1ButtonRelease s) (f2ButtonRelease s) (f3ButtonRelease s) (setButtonRelease s)
    (increment s) (segment s) (isSettingTime s) (isStopwatchCounting s)
    (isTimerCounting s) (flash s) (pins s) (out s).
Definition with_modeNumber (v : Z) (s : State) : State :=
  mkState (timeOfDay s) (stopWatchTime s) (timer s) v (toggleButtonRelease s)
    (f1ButtonRelease s) (f2ButtonRelease s) (f3ButtonRelease s) (setButtonRelease s)
    (increment s) (segment s) (isSettingTime s) (isStopwatchCounting s)
    (isTimerCounting s) (flash s) (pins s) (out s).
Definition with_toggleButtonRelease (v : Z) (s : State) : State :=
  mkState (timeOfDay s) (stopWatchTime s) (timer s) (modeNumber s) v
    (f1ButtonRelease s) (f2ButtonRelease s) (f3ButtonRelease s) (setButtonRelease s)
    (increment s) (segment s) (isSettingTime s) (isStopwatchCounting s)
    (isTimerCounting s) (flash s) (pins s) (out s).
Definition with_f1ButtonRelease (v : Z) (s : State) : State :=
  mkState (timeOfDay s) (stopWatchTime s) (timer s) (modeNumber s) (toggleButtonRelease s)
    v (f2ButtonRelease s) (f3ButtonRelease s) (setButtonRelease s)
    (increment s) (segment s) (isSettingTime s) (isStopwatchCounting s)
    (isTimerCounting s) (flash s) (pins s) (out s).
Definition with_f2ButtonRelease (v : Z) (s : State) : State :=
  mkState (timeOfDay s) (stopWatchTime s) (timer s) (modeNumber s) (toggleButtonRelease s)
    (f1ButtonRelease s) v (f3ButtonRelease s) (setButtonRelease s)
    (increment s) (segment s) (isSettingTime s) (isStopwatchCounting s)
    (isTimerCounting s) (flash s) (pins s) (out s).
Definition with_f3ButtonRelease (v : Z) (s : State) : State :=
  mkState (timeOfDay s) (stopWatchTime s) (timer s) (modeNumber s) (toggleButtonRelease s)
    (f1ButtonRelease s) (f2ButtonRelease s) v (setButtonRelease s)
    (increment s) (segment s) (isSettingTime s) (isStopwatchCounting s)
    (isTimerCounting s) (flash s) (pins s) (out s).
Definition with_setButtonRelease (v : Z) (s : State) : State :=
  mkState (timeOfDay s) (stopWatchTime s) (timer s) (modeNumber s) (toggleButtonRelease s)
    (f1ButtonRelease s) (f2ButtonRelease s) (f3ButtonRelease s) v
    (increment s) (segment s) (isSettingTime s) (isStopwatchCounting s)
    (isTimerCounting s) (flash s) (pins s) (out s).
Definition with_increment (v : Z) (s : State) : State :=
  mkState (timeOfDay s) (stopWatchTime s) (timer s) (modeNumber s) (toggleButtonRelease s)
    (f1ButtonRelease s) (f2ButtonRelease s) (f3ButtonRelease s) (setButtonRelease s)
    v (segment s) (isSettingTime s) (isStopwatchCounting s)
    (isTimerCounting s) (flash s) (pins s) (out s).
Definition with_segment (v : Z) (s : State) : State :=
  mkState (timeOfDay s) (stopWatchTime s) (timer s) (modeNumber s) (toggleButtonRelease s)
    (f1ButtonRelease s) (f2ButtonRelease s) (f3ButtonRelease s) (setButtonRelease s)
    (increment s) v (isSettingTime s) (isStopwatchCounting s)
    (isTimerCounting s) (flash s) (pins s) (out s).
Definition with_isSettingTime (v : Z) (s : State) : State :=
  mkState (timeOfDay s) (stopWatchTime s) (timer s) (modeNumber s) (toggleButtonRelease s)
    (f1ButtonRelease s) (f2ButtonRelease s) (f3ButtonRelease s) (setButtonRelease s)
    (increment s) (segment s) v (isStopwatchCounting s)
    (isTimerCounting s) (flash s) (pins s) (out s).
Definition with_isStopwatchCounting (v : Z) (s : State) : State :=
  mkState (timeOfDay s) (stopWatchTime s) (timer s) (modeNumber s) (toggleButtonRelease s)
    (f1ButtonRelease s) (f2ButtonRelease s) (f3ButtonRelease s) (setButtonRelease s)
    (increment s) (segment s) (isSettingTime s) v
    (isTimerCounting s) (flash s) (pins s) (out s).
Definition with_isTimerCounting (v : Z) (s : State) : State :=
  mkState (timeOfDay s) (stopWatchTime s) (timer s) (modeNumber s) (toggleButtonRelease s)
    (f1ButtonRelease s) (f2ButtonRelease s) (f3ButtonRelease s) (setButtonRelease s)
    (increment s) (segment s) (isSettingTime s) (isStopwatchCounting s)
    v (flash s) (pins s) (out s).
Definition with_flash (v : Z) (s : State) : State :=
  mkState (timeOfDay s) (stopWatchTime s) (timer s) (modeNumber s) (toggleButtonRelease s)
    (f1ButtonRelease s) (f2ButtonRelease s) (f3ButtonRelease s) (setButtonRelease s)
    (increment s) (segment s) (isSettingTime s) (isStopwatchCounting s)
    (isTimerCounting s) v (pins s) (out s).
Definition with_pins (v : gmap Z bool) (s : State) : State :=
  mkState (timeOfDay s) (stopWatchTime s) (timer s) (modeNumber s) (toggleButtonRelease s)
    (f1ButtonRelease s) (f2ButtonRelease s) (f3ButtonRelease s) (setButtonRelease s)
    (increment s) (segment s) (isSettingTime s) (isStopwatchCounting s)
    (isTimerCounting s) (flash s) v (out s).
Definition with_out (v : list Output) (s : State) : State :=
  mkState (timeOfDay s) (stopWatchTime s) (timer s) (modeNumber s) (toggleButtonRelease s)
    (f1ButtonRelease s) (f2ButtonRelease s) (f3ButtonRelease s) (setButtonRelease s)
    (increment s) (segment s) (isSettingTime s) (isStopwatchCounting s)
    (isTimerCounting s) (flash s) (pins s) v.

(** [set_time] takes a [timeStruct &]: a reference to one of the three
    global structs.  The reference is a name; reads and writes go through
    the state. *)
Inductive timeRef := TimeOfDay | StopWatchTime | Timer.

Definition get_time (r : timeRef) (s : State) : timeStruct :=
  match r with
  | TimeOfDay => timeOfDay s
  | StopWatchTime => stopWatchTime s
  | Timer => timer s
  end.

Definition put_time (r : timeRef) (t : timeStruct) (s : State) : State :=
  match r with
  | TimeOfDay => with_timeOfDay t s
  | StopWatchTime => with_stopWatchTime t s
  | Timer => with_timer t s
  end.

(** ** Peripherals *)

Definition digitalWrite (pin val : Z) (s : State) : State :=
  let level := negb (val =? LOW) in
  with_out (out s ++ [DigitalWrite pin level])
    (with_pins (<[pin := level]> (pins s)) s).

Definition lcd_setCursor (col row : Z) (s : State) : State :=
  with_out (out s ++ [LcdSetCursor col row]) s.
Definition lcd_print (text : string) (s : State) : State :=
  with_out (out s ++ [LcdPrint text]) s.
Definition lcd_print_int (n : Z) (s : State) : State :=
  with_out (out s ++ [LcdPrintInt n]) s.

(** [for (thisPin = lowestPin; thisPin <= highestPin; thisPin++)
      digitalWrite(thisPin, val);] *)
Definition write_all_leds (val : Z) (s : State) : State :=
  foldl (fun s thisPin => digitalWrite thisPin val s) s
        (seqZ lowestPin (highestPin - lowestPin + 1)).

(** The [switch (modeNumber)] that prints the label of the mode. *)
Definition print_mode_label (s : State) : State :=
  if modeNumber s =? 0 then lcd_print "TIME OF DAY:    " s
  else if modeNumber s =? 1 then lcd_print "STOPWATCH:      " s
  else if modeNumber s =? 2 then lcd_print "TIMER:          " s
  else s.

(** Apply [f] to the struct a reference names. *)
Definition upd_time (r : timeRef) (f : timeStruct -> timeStruct) (s : State) : State :=
  put_time r (f (get_time r s)) s.

(** ** [count_time] *)

Definition count_time (t : timeStruct) : timeStruct :=
  let t := set_milliseconds (int_add (milliseconds t) TICKRATE) t in
  let t := if milliseconds t =? 1000
           then set_milliseconds 0 (set_seconds (int_add (seconds t) 1) t)
           else t in
  let t := if seconds t =? 60
           then set_seconds 0 (set_minutes (int_add (minutes t) 1) t)
           else t in
  let t := if minutes t =? 60
           then set_minutes 0 (set_hours (int_add (hours t) 1) t)
           else t in
  set_hours (int_rem (hours t) 24) t.

(** ** [led_display] and [update_lcd] *)

(** The pin writes of [led_display], in program order: the first loop
    interleaves the seconds and minutes pins, the second does the hours. *)
Definition led_writes (t : timeStruct) : list (Z * Z) :=
  flat_map (fun i => [(lowestSecPin + i, bitRead (seconds t) i);
                      (lowestMinPin + i, bitRead (minutes t) i)]) (seqZ 0 6)
  ++ map (fun i => (lowestHourPin + i, bitRead (hours t) i)) (seqZ 0 5).

Definition led_display (t : timeStruct) (s : State) : State :=
  if (milliseconds t =? 0) || (milliseconds t =? 1000)
  then foldl (fun s w => digitalWrite (fst w) (snd w) s) s (led_writes t)
  else s.

Definition update_lcd (t : timeStruct) (s : State) : State :=
  let s := lcd_setCursor 0 1 s in
  let s := if hours t <? 10 then lcd_print "0" s else s in
  let s := lcd_print_int (hours t) s in
  let s := lcd_setCursor 2 1 s in
  let s := lcd_print ":" s in
  let s := lcd_setCursor 3 1 s in
  let s := if minutes t <? 10 then lcd_print "0" s else s in
  let s := lcd_print_int (minutes t) s in
  let s := lcd_setCursor 5 1 s in
  let s := lcd_print ":" s in
  let s := lcd_setCursor 6 1 s in
  let s := if seconds t <? 10 then lcd_print "0" s else s in
  let s := lcd_print_int (seconds t) s in
  let s := lcd_setCursor 8 1 s in
  let s := lcd_print ":" s in
  let s := lcd_setCursor 9 1 s in
  let s := if milliseconds t <? 10 then lcd_print "00" s
           else if milliseconds t <? 100 then lcd_print "0" s
           else s in
  lcd_print_int (milliseconds t) s.

(** The four assignments [t.milliseconds = 0; t.seconds = 0; t.minutes = 0;
    t.hours = 0;] of the clear paths. *)
Definition zero_fields (t : timeStruct) : timeStruct :=
  set_hours 0 (set_minutes 0 (set_seconds 0 (set_milliseconds 0 t))).

(** ** [run_stopwatch] *)

(** Start/stop on release of func1: lines 204-210. *)
Definition stopwatch_start_stop (inp : Inputs) (s : State) : State :=
  if digitalRead inp f1ButtonPin =? HIGH then with_f1ButtonRelease 1 s
  else if (digitalRead inp f1ButtonPin =? LOW) && (f1ButtonRelease s =? 1) then
    let s := if isStopwatchCounting s =? 0 then with_isStopwatchCounting 1 s
             else with_isStopwatchCounting 0 s in
    with_f1ButtonRelease 0 s
  else s.

(** Clear on release of func2: lines 213-224. *)
Definition stopwatch_clear (inp : Inputs) (s : State) : State :=
  if digitalRead inp f2ButtonPin =? HIGH then with_f2ButtonRelease 1 s
  else if (digitalRead inp f2ButtonPin =? LOW) && (f2ButtonRelease s =? 1) then
    let s := upd_time StopWatchTime zero_fields s in
    let s := with_isStopwatchCounting 0 s in
    let s := with_f2ButtonRelease 0 s in
    led_display (stopWatchTime s) s
  else s.

(** Count while running: lines 227-231. *)
Definition stopwatch_count (s : State) : State :=
  if isStopwatchCounting s =? 1 then
    let s := upd_time StopWatchTime count_time s in
    led_display (stopWatchTime s) s
  else s.

Definition run_stopwatch (inp : Inputs) (s : State) : State :=
  let s := stopwatch_start_stop inp s in
  let s := stopwatch_clear inp s in
  let s := stopwatch_count s in
  update_lcd (stopWatchTime s) s.

(** ** [set_time] *)

(** The body of [if (increment % 152 == 0) { ... }]: bump the unit under
    the cursor, then the overflow checks. *)
Definition increment_segment (seg : Z) (t : timeStruct) : timeStruct :=
  let t := if seg =? 0 then set_seconds (int_add (seconds t) 1) t
           else if seg =? 1 then set_minutes (int_add (minutes t) 1) t
           else if seg =? 2 then set_hours (int_add (hours t) 1) t
           else t in
  let t := if seconds t >? 60
           then let t := set_seconds (int_rem (seconds t) 60) t in
                set_minutes (int_add (minutes t) 1) t
           else t in
  let t := if minutes t >? 60
           then let t := set_minutes (int_rem (minutes t) 60) t in
                set_hours (int_add (hours t) 1) t
           else t in
  set_hours (int_rem (hours t) 24) t.

(** The [switch (segment)] of the clear button. *)
Definition clear_segment (seg : Z) (t : timeStruct) : timeStruct :=
  if seg =? 0 then set_seconds 0 t
  else if seg =? 1 then set_minutes 0 t
  else if seg =? 2 then set_hours 0 t
  else t.

(** Move the cursor on release of func3: lines 250-259. *)
Definition set_time_select (inp : Inputs) (s : State) : State :=
  if digitalRead inp f3ButtonPin =? HIGH then with_f3ButtonRelease 1 s
  else if (digitalRead inp f3ButtonPin =? LOW) && (f3ButtonRelease s =? 1) then
    let s := with_segment (int_add (segment s) 1) s in
    let s := with_segment (int_rem (segment s) 3) s in
    with_f3ButtonRelease 0 s
  else s.

(** Clear the unit under the cursor on release of func2: lines 263-276. *)
Definition set_time_clear (r : timeRef) (inp : Inputs) (s : State) : State :=
  if digitalRead inp f2ButtonPin =? HIGH then with_f2ButtonRelease 1 s
  else if (digitalRead inp f2ButtonPin =? LOW) && (f2ButtonRelease s =? 1) then
    let s := upd_time r (clear_segment (segment s)) s in
    let s := with_f2ButtonRelease 0 s in
    let s := update_lcd (get_time r s) s in
    led_display (get_time r s) s
  else s.

(** Auto-repeat while func1 is held: lines 280-316. *)
Definition set_time_increment (r : timeRef) (inp : Inputs) (s : State) : State :=
  if digitalRead inp f1ButtonPin =? HIGH then
    let s := update_lcd (get_time r s) s in
    let s := led_display (get_time r s) s in
    let s := with_f1ButtonRelease 1 s in
    let s := if int_rem (increment s) 152 =? 0
             then upd_time r (increment_segment (segment s)) s
             else s in
    let s := with_increment (int_add (increment s) TICKRATE) s in
    with_increment (int_rem (increment s) 1000) s
  else if (digitalRead inp f1ButtonPin =? LOW) && (f1ButtonRelease s =? 1) then
    let s := with_increment 0 s in
    with_f1ButtonRelease 0 s
  else s.

Definition set_time (r : timeRef) (inp : Inputs) (s : State) : State :=
  let s := upd_time r (set_milliseconds 0) s in
  let s := set_time_select inp s in
  let s := set_time_clear r inp s in
  set_time_increment r inp s.

(** ** [run_timer] *)

(** The countdown step, written inline in [run_timer] (the spec calls it
    retreat): [timer.milliseconds -= TICKRATE - 2;] and the three borrow
    checks, lines 387-400. *)
Definition retreat (t : timeStruct) : timeStruct :=
  let t := set_milliseconds (int_sub (milliseconds t) (TICKRATE - 2)) t in
  let t := if milliseconds t <? 0
           then let t := set_seconds (int_sub (seconds t) 1) t in
                set_milliseconds 1000 t
           else t in
  let t := if seconds t =? -1
           then let t := set_minutes (int_sub (minutes t) 1) t in
                set_seconds 59 t
           else t in
  let t := if minutes t =? -1
           then let t := set_minutes (int_sub (minutes t) 1) t in
                set_seconds 59 t
           else t in
  t.

(** [timer.hours + timer.seconds + timer.milliseconds + timer.minutes]. *)
Definition timer_sum (t : timeStruct) : Z :=
  int_add (int_add (int_add (hours t) (seconds t)) (milliseconds t)) (minutes t).

(** Start/stop on release of func1: lines 335-341. *)
Definition timer_start_stop (inp : Inputs) (s : State) : State :=
  if digitalRead inp f1ButtonPin =? HIGH then with_f1ButtonRelease 1 s
  else if (digitalRead inp f1ButtonPin =? LOW) && (f1ButtonRelease s =? 1) then
    let s := if isTimerCounting s =? 0 then with_isTimerCounting 1 s
             else with_isTimerCounting 0 s in
    with_f1ButtonRelease 0 s
  else s.

(** Clear on release of func2: lines 344-354.  The last assignment is to
    [f1ButtonRelease], as in the source. *)
Definition timer_clear (inp : Inputs) (s : State) : State :=
  if digitalRead inp f2ButtonPin =? HIGH then with_f2ButtonRelease 1 s
  else if (digitalRead inp f2ButtonPin =? LOW) && (f2ButtonRelease s =? 1) then
    let s := upd_time Timer zero_fields s in
    let s := with_isTimerCounting 0 s in
    with_f1ButtonRelease 0 s
  else s.

(** The first block of [run_timer], under [if (isSettingTime == 0)]. *)
Definition timer_buttons (inp : Inputs) (s : State) : State :=
  if isSettingTime s =? 0 then
    let s := timer_start_stop inp s in
    timer_clear inp s
  else s.

(** The flashing of an expired timer: lines 365-380. *)
Definition timer_flash (s : State) : State :=
  let s := with_flash (int_add (flash s) 1) s in
  let s := with_flash (int_rem (flash s) 80) s in
  let s := if flash s =? 0 then write_all_leds HIGH s
           else if flash s =? 40 then write_all_leds LOW s
           else s in
  update_lcd (timer s) s.

(** One tick of countdown: lines 386-403. *)
Definition timer_count (s : State) : State :=
  let s := led_display (timer s) s in
  let s := upd_time Timer retreat s in
  update_lcd (timer s) s.

Definition run_timer (inp : Inputs) (s : State) : State :=
  let s := timer_buttons inp s in
  if negb (isSettingTime s =? 0) then set_time Timer inp s
  else if timer_sum (timer s) =? 0 then timer_flash s
  else if negb (isTimerCounting s =? 0) then timer_count s
  else s.

(** ** [loop] *)

(** The set button: lines 489-536. *)
Definition set_button_block (inp : Inputs) (s : State) : State :=
  if digitalRead inp setButtonPin =? HIGH then with_setButtonRelease 1 s
  else if (digitalRead inp setButtonPin =? LOW) && (setButtonRelease s =? 1) then
    let s :=
      if (isSettingTime s =? 0) && negb (modeNumber s =? 1) then
        let s := with_isSettingTime 1 s in
        let s := lcd_setCursor 0 0 s in
        let s := lcd_print "SETTING TIME    " s in
        if modeNumber s =? 2 then
          let s := write_all_leds LOW s in
          let s := upd_time Timer zero_fields s in
          with_isTimerCounting 0 s
        else s
      else
        let s := lcd_setCursor 0 0 s in
        let s := print_mode_label s in
        let s := with_isSettingTime 0 s in
        let s := with_increment 0 s in
        with_segment 0 s in
    with_setButtonRelease 0 s
  else s.

(** The background clock: lines 541-545. *)
Definition clock_block (inp : Inputs) (s : State) : State :=
  let s :=
    if negb (isSettingTime s =? 1) || negb (modeNumber s =? 0)
    then upd_time TimeOfDay count_time s
    else set_time TimeOfDay inp s in
  if negb (isSettingTime s =? 1) && (modeNumber s =? 0)
  then update_lcd (timeOfDay s) s
  else s.

(** The mode toggle button: lines 548-577. *)
Definition toggle_block (inp : Inputs) (s : State) : State :=
  if digitalRead inp toggleButtonPin =? HIGH then with_toggleButtonRelease 1 s
  else if (digitalRead inp toggleButtonPin =? LOW) && (toggleButtonRelease s =? 1) then
    let s := with_modeNumber (int_add (modeNumber s) 1) s in
    let s := with_modeNumber (int_rem (modeNumber s) 3) s in
    let s := lcd_setCursor 0 0 s in
    let s := print_mode_label s in
    let s := write_all_leds LOW s in
    let s := with_isSettingTime 0 s in
    let s := with_toggleButtonRelease 0 s in
    with_flash 0 s
  else s.

(** The final [switch (modeNumber)]: lines 580-588. *)
Definition mode_switch (inp : Inputs) (s : State) : State :=
  if modeNumber s =? 0 then led_display (timeOfDay s) s
  else if modeNumber s =? 1 then run_stopwatch inp s
  else if modeNumber s =? 2 then run_timer inp s
  else s.

Definition loop (inp : Inputs) (s : State) : State :=
  mode_switch inp (toggle_block inp (clock_block inp (set_button_block inp s))).

(** ** Start-up and runs *)

Definition zero_time : timeStruct := mkTime 0 0 0 0.

(** The globals as their initialisers leave them. *)
Definition globals0 : State :=
  mkState zero_time zero_time zero_time 0 0 0 0 0 0 0 0 0 0 0 0 ∅ [].

(** [setup]: only the two LCD calls leave a trace; [pinMode], [lcd.begin]
    and [Serial.begin] configure the board. *)
Definition setup (s : State) : State :=
  lcd_print "TIME OF DAY:    " (lcd_setCursor 0 0 s).

Definition init : State := setup globals0.

(** One call of [loop] per element of the input list, oldest first. *)
Fixpoint run (inps : list Inputs) (s : State) : State :=
  match inps with
  | [] => s
  | inp :: rest => run rest (loop inp s)
  end.

Inductive reachable : State -> Prop :=
| reachable_init : reachable init
| reachable_loop inp s : reachable s -> reachable (loop inp s).

(** Input samples for concrete runs. *)
Definition idle : Inputs := mkInputs false false false false false.
Definition press_set : Inputs := mkInputs true false false false false.
Definition press_toggle : Inputs := mkInputs false true false false false.
Definition press_f1 : Inputs := mkInputs false false true false false.
Definition press_f2 : Inputs := mkInputs false false false true false.
Definition press_f3 : Inputs := mkInputs false false false false true.

(** A button pushed for one tick and let go for the next. *)
Definition click (b : Inputs) : list Inputs := [b; idle].


(** ** Predicates used by the statements *)

(** The normalization invariant of a Time Value. *)
Definition valid_time (t : timeStruct) : Prop :=
  0 <= hours t <= 23 /\ 0 <= minutes t <= 59 /\
  0 <= seconds t <= 59 /\ 0 <= milliseconds t <= 999.

(** What every tick keeps of the three Time Values: the time of day and
    the stopwatch stay on the tick grid, the stopwatch is normalized, the
    countdown may show 1000 subseconds. *)
Definition tod_ok (t : timeStruct) : Prop :=
  0 <= hours t <= 23 /\ 0 <= milliseconds t <= 999 /\
  milliseconds t mod TICKRATE = 0.
Definition sw_ok (t : timeStruct) : Prop :=
  valid_time t /\ milliseconds t mod TICKRATE = 0.
Definition timer_ok (t : timeStruct) : Prop :=
  0 <= hours t <= 23 /\ 0 <= milliseconds t <= 1000.
Definition time_inv (s : State) : Prop :=
  tod_ok (timeOfDay s) /\ sw_ok (stopWatchTime s) /\ timer_ok (timer s).

(** Seconds since midnight. *)
Definition day_seconds (t : timeStruct) : Z :=
  hours t * 3600 + minutes t * 60 + seconds t.

(** [1000 / TICKRATE] ticks make one second. *)
Definition ticks_per_second : nat := Z.to_nat (1000 / TICKRATE).

(** The states in which editing and the stopwatch display exclude each
    other. *)
Definition edit_inv (s : State) : Prop :=
  isSettingTime s = 1 -> modeNumber s <> 1.

(** The state in which [loop] reaches the toggle block, and the one in
    which it leaves it. *)
Definition before_toggle (inp : Inputs) (s : State) : State :=
  clock_block inp (set_button_block inp s).
Definition after_toggle (inp : Inputs) (s : State) : State :=
  toggle_block inp (before_toggle inp s).

(** The release event of the mode toggle fires in this tick. *)
Definition toggle_fires (inp : Inputs) (s : State) : bool :=
  negb (toggleButton inp) && (toggleButtonRelease s =? 1).

(** How many ticks of a run fire it. *)
Fixpoint toggle_events (inps : list Inputs) (s : State) : nat :=
  match inps with
  | [] => 0
  | inp :: rest =>
      ((if toggle_fires inp s then 1 else 0) + toggle_events rest (loop inp s))%nat
  end.

(** What [led_display] is meant to put on the pins: bit [i] of the seconds
    on pin [lowestSecPin + i], of the minutes on [lowestMinPin + i], of the
    hours on [lowestHourPin + i], in the order of the two loops. *)
Definition led_events (t : timeStruct) : list Output :=
  flat_map (fun i => [DigitalWrite (lowestSecPin + i) (Z.testbit (seconds t) i);
                      DigitalWrite (lowestMinPin + i) (Z.testbit (minutes t) i)])
           (seqZ 0 6)
  ++ map (fun i => DigitalWrite (lowestHourPin + i) (Z.testbit (hours t) i))
         (seqZ 0 5).

(** The event [digitalWrite] logs for one entry of [led_writes]. *)
Definition write_event (w : Z * Z) : Output :=
  DigitalWrite (fst w) (negb (snd w =? LOW)).

(** [s'] differs from [s] in the pin levels and the output log only. *)
Definition io_only (s s' : State) : Prop :=
  exists p o, s' = with_out o (with_pins p s).

(** ** Concrete runs from start-up *)

(** The set button is down on the first tick. *)
Definition set_down : State := loop press_set init.

(** One push of the set button: the clock is being edited. *)
Definition editing_clock : State := run (click press_set) init.

(** The clock is being edited and func1 has been pushed 59 times. *)
Definition editing_clock_59 : State :=
  run (click press_set ++ concat (replicate 59 (click press_f1))) init.

(** Stopwatch mode, stopwatch started, mode toggle down. *)
Definition stopwatch_running : State :=
  run (click press_toggle ++ click press_f1 ++ [press_toggle]) init.

(** Timer mode, timer set to one second and started. *)
Definition timer_started : State :=
  run (click press_toggle ++ click press_toggle ++ click press_set
       ++ click press_f1 ++ click press_set ++ click press_f1) init.

(** Timer mode, timer set to one hour, func1 down to start it. *)
Definition timer_one_hour : State :=
  run (click press_toggle ++ click press_toggle ++ click press_set
       ++ click press_f3 ++ click press_f3 ++ click press_f1
       ++ click press_set ++ [press_f1]) init.

(** Timer mode, clear button down. *)
Definition timer_clear_down : State :=
  run (click press_toggle ++ click press_toggle ++ [press_f2]) init.

(** ** Further notions used by the statements *)

(** Milliseconds since midnight. *)
Definition day_millis (t : timeStruct) : Z :=
  day_seconds t * 1000 + milliseconds t.

Definition day_length : Z := 24 * 60 * 60 * 1000.

(** The subseconds a running countdown can show: 1000 after a borrow, then
    down in steps of [TICKRATE - 2]. *)
Definition countdown_grid (t : timeStruct) : Prop :=
  4 <= milliseconds t <= 1000 /\ milliseconds t mod (TICKRATE - 2) = 4.

(** The number a bank of [n] LEDs starting at pin [base] shows: LED [i]
    lit counts [2 ^ i]. *)
Definition read_bits (p : gmap Z bool) (base n : Z) : Z :=
  foldr (fun i acc => (if p !! (base + i) is Some true then 2 ^ i else 0) + acc)
        0 (seqZ 0 n).

(** [s'] differs from [s] in the output log only. *)
Definition lcd_only (s s' : State) : Prop := exists o, s' = with_out o s.

(** The LED pins all read [level]. *)
Definition leds_all (level : bool) (s : State) : Prop :=
  forall p, lowestPin <= p <= highestPin -> pins s !! p = Some level.

(** A variable used as a boolean holds 0 or 1. *)
Definition flag (x : Z) : Prop := x = 0 \/ x = 1.

(** The ranges of the control variables. *)
Definition control_inv (s : State) : Prop :=
  0 <= modeNumber s <= 2 /\ 0 <= segment s <= 2 /\
  (0 <= increment s <= 999 /\ increment s mod TICKRATE = 0) /\
  0 <= flash s <= 79 /\
  flag (isSettingTime s) /\ flag (isStopwatchCounting s) /\
  flag (isTimerCounting s) /\
  flag (toggleButtonRelease s) /\ flag (setButtonRelease s) /\
  flag (f1ButtonRelease s) /\ flag (f2ButtonRelease s) /\
  flag (f3ButtonRelease s).

(** The stopwatch is shown, nothing is being edited, and no release of the
    set, toggle or clear button is pending. *)
Definition stopwatch_view (s : State) : Prop :=
  modeNumber s = 1 /\ isSettingTime s = 0 /\ setButtonRelease s = 0 /\
  toggleButtonRelease s = 0 /\ f2ButtonRelease s = 0.

(** One push of func3 while editing: a tick with the button down, a tick
    with it up. *)
Definition push_select (r : timeRef) (s : State) : State :=
  set_time r idle (set_time r press_f3 s).

(** The text the sketch shows on the top row for each mode. *)
Definition mode_label (m : Z) : string :=
  if m =? 0 then "TIME OF DAY:    "
  else if m =? 1 then "STOPWATCH:      "
  else "TIMER:          ".

(** The log of LOW written to every LED pin, lowest pin first. *)
Definition leds_off_events : list Output :=
  map (fun p => DigitalWrite p false) (seqZ lowestPin (highestPin - lowestPin + 1)).

(** The timer is shown, nothing is being edited, and no release of any
    button but func3 is pending. *)
Definition timer_view (s : State) : Prop :=
  modeNumber s = 2 /\ isSettingTime s = 0 /\ setButtonRelease s = 0 /\
  toggleButtonRelease s = 0 /\ f1ButtonRelease s = 0 /\ f2ButtonRelease s = 0.

(** Timer mode, timer set to two seconds and started: the first step has
    run. *)
Definition timer_two_started : State :=
  run (click press_toggle ++ click press_toggle ++ click press_set
       ++ click press_f1 ++ click press_f1 ++ click press_set
       ++ click press_f1) init.

(** Stopwatch mode, stopwatch started, clear button down. *)
Definition stopwatch_clear_down : State :=
  run (click press_toggle ++ click press_f1 ++ [press_f2]) init.

(** * Proofs *)

Arguments int_wrap : simpl never.
Arguments int_add : simpl never.
Arguments int_sub : simpl never.
Arguments int_rem : simpl never.

(** [lia] after turning [/], [mod], [Z.quot] and [Z.rem] into equations. *)
Ltac zlia := Z.to_euclidean_division_equations; lia.

(** ** Machine integers *)

Lemma int_wrap_id z : -32768 <= z <= 32767 -> int_wrap z = z.
Proof. intros Hz. unfold int_wrap. rewrite Z.mod_small; lia. Qed.

Lemma int_add_id a b : -32768 <= a + b <= 32767 -> int_add a b = a + b.
Proof. apply int_wrap_id. Qed.

Lemma int_sub_id a b : -32768 <= a - b <= 32767 -> int_sub a b = a - b.
Proof. apply int_wrap_id. Qed.

Lemma int_rem_range a b : 0 <= a -> 0 < b -> 0 <= int_rem a b < b.
Proof. intros Ha Hb. unfold int_rem. apply Z.rem_bound_pos; lia. Qed.

Lemma int_rem_small a b : 0 <= a < b -> int_rem a b = a.
Proof. intros Ha. unfold int_rem. apply Z.rem_small; lia. Qed.

Lemma bitRead_testbit v i : 0 <= i -> negb (bitRead v i =? LOW) = Z.testbit v i.
Proof.
  intros Hi. unfold bitRead, LOW.
  change 1 with (Z.ones 1). rewrite Z.land_ones by lia.
  change (2 ^ 1) with 2. rewrite <- Z.bit0_mod, Z.shiftr_spec by lia.
  rewrite Z.add_0_l. by destruct (Z.testbit v i).
Qed.

(** ** [count_time] over one second *)

(** Case on a test that has no other test inside it. *)
Ltac case_inner :=
  match goal with
  | |- context [if ?c then _ else _] =>
      lazymatch c with
      | context [if _ then _ else _] => fail
      | context [?a =? ?b] => destruct (Z.eqb_spec a b)
      | context [?a <? ?b] => destruct (Z.ltb_spec a b)
      | context [?a >? ?b] => rewrite (Z.gtb_ltb a b); destruct (Z.ltb_spec b a)
      | _ => destruct c eqn:?
      end
  end.

(** Drop an [int_wrap] whose argument is in range. *)
Ltac norm_int :=
  match goal with
  | |- context [int_add ?a ?b] => rewrite (int_add_id a b) by lia
  | |- context [int_sub ?a ?b] => rewrite (int_sub_id a b) by lia
  end.

Ltac case_steps := repeat (first [norm_int | case_inner]; cbn; try lia).

Lemma count_time_within t :
  valid_time t -> milliseconds t + TICKRATE < 1000 ->
  count_time t = set_milliseconds (milliseconds t + TICKRATE) t.
Proof.
  destruct t as [h m sec ms]. unfold valid_time, count_time, TICKRATE. cbn.
  intros (Hh & Hm & Hs & Hms) Hlt.
  case_steps. by rewrite int_rem_small by lia.
Qed.

Lemma count_time_carry t :
  valid_time t -> milliseconds t + TICKRATE = 1000 ->
  valid_time (count_time t) /\ milliseconds (count_time t) = 0 /\
  day_seconds (count_time t) = (day_seconds t + 1) mod 86400.
Proof.
  destruct t as [h m sec ms].
  unfold valid_time, count_time, day_seconds, TICKRATE. cbn.
  intros (Hh & Hm & Hs & Hms) Heq.
  case_steps; unfold int_rem; zlia.
Qed.

Lemma iter_count_time_within k t :
  valid_time t -> milliseconds t + TICKRATE * Z.of_nat k < 1000 ->
  Nat.iter k count_time t
  = set_milliseconds (milliseconds t + TICKRATE * Z.of_nat k) t.
Proof.
  intros Hv. induction k as [|k IH]; intros Hlt.
  - cbn. destruct t. unfold set_milliseconds. cbn. f_equal. unfold TICKRATE. lia.
  - rewrite Nat.iter_succ. unfold TICKRATE in *. rewrite IH by lia.
    destruct t as [h m sec ms]. unfold valid_time in Hv. cbn in *.
    rewrite count_time_within.
    + unfold set_milliseconds, TICKRATE. cbn. f_equal. lia.
    + unfold valid_time. cbn. lia.
    + unfold TICKRATE. cbn. lia.
Qed.

(** C5, as amended.  Starting from a valid Time Value whose subseconds are
    a multiple of the tick, [1000 / TICKRATE] calls of [count_time] move
    the time one second forward (with the carries, wrapping at midnight),
    keep it valid and bring the subseconds back to their starting value,
    which is 0 when they started at 0. *)
Theorem count_time_one_second (t : timeStruct) :
  valid_time t -> milliseconds t mod TICKRATE = 0 ->
  let t' := Nat.iter ticks_per_second count_time t in
  valid_time t' /\
  day_seconds t' = (day_seconds t + 1) mod 86400 /\
  milliseconds t' = milliseconds t /\
  (milliseconds t = 0 -> milliseconds t' = 0).
Proof.
  intros Hv Hmod.
  set (j := milliseconds t / TICKRATE).
  assert (Hj : milliseconds t = TICKRATE * j /\ 0 <= j <= 124).
  { unfold j, TICKRATE in *. destruct Hv as (_ & _ & _ & Hms). zlia. }
  destruct Hj as [Hms Hj].
  assert (Hn : ticks_per_second
               = (Z.to_nat j + S (Z.to_nat (124 - j)))%nat).
  { change ticks_per_second with 125%nat. lia. }
  rewrite Hn, Nat.iter_add, Nat.iter_succ.
  rewrite (iter_count_time_within (Z.to_nat (124 - j)) t Hv)
    by (unfold TICKRATE in *; lia).
  set (t1 := set_milliseconds _ t).
  assert (Hv1 : valid_time t1).
  { subst t1. destruct t. unfold valid_time, TICKRATE in *. cbn in *. lia. }
  assert (Hms1 : milliseconds t1 + TICKRATE = 1000).
  { subst t1. destruct t. unfold TICKRATE in *. cbn in *. lia. }
  destruct (count_time_carry t1 Hv1 Hms1) as (Hv2 & Hms2 & Hday).
  rewrite (iter_count_time_within (Z.to_nat j) _ Hv2)
    by (rewrite Hms2; unfold TICKRATE; lia).
  assert (Hd1 : day_seconds t1 = day_seconds t) by (subst t1; by destruct t).
  rewrite Hd1 in Hday.
  destruct (count_time t1) as [h2 m2 s2 ms2].
  unfold valid_time, day_seconds, TICKRATE in *. cbn in *. lia.
Qed.

(** A valid starting point for the theorem: 23:59:59.000, the last second
    of the day. *)
Lemma count_time_one_second_witness :
  valid_time (Nat.iter ticks_per_second count_time (mkTime 23 59 59 0)) /\
  day_seconds (Nat.iter ticks_per_second count_time (mkTime 23 59 59 0))
  = (day_seconds (mkTime 23 59 59 0) + 1) mod 86400 /\
  milliseconds (Nat.iter ticks_per_second count_time (mkTime 23 59 59 0))
  = milliseconds (mkTime 23 59 59 0) /\
  (milliseconds (mkTime 23 59 59 0) = 0 ->
   milliseconds (Nat.iter ticks_per_second count_time (mkTime 23 59 59 0)) = 0).
Proof.
  apply (count_time_one_second (mkTime 23 59 59 0)).
  - unfold valid_time. cbn. lia.
  - reflexivity.
Defined.

(** C5 as stated fails off the tick grid: from 00:00:00.001 the subseconds
    step over 1000 without ever being equal to it, so after
    [1000 / TICKRATE] calls the seconds have not moved and the subseconds
    are 1001. *)
Lemma off_grid_second_is_lost :
  valid_time (mkTime 0 0 0 1) /\
  Nat.iter ticks_per_second count_time (mkTime 0 0 0 1) = mkTime 0 0 0 1001 /\
  ~ (day_seconds (Nat.iter ticks_per_second count_time (mkTime 0 0 0 1))
     = (day_seconds (mkTime 0 0 0 1) + 1) mod 86400 /\
     milliseconds (Nat.iter ticks_per_second count_time (mkTime 0 0 0 1)) = 0).
Proof.
  split; [unfold valid_time; cbn; lia|].
  split; [vm_compute; reflexivity|].
  vm_compute. intros [H _]. discriminate H.
Qed.

(** ** [led_display] *)

Lemma out_foldl_writes ws s :
  out (foldl (fun s w => digitalWrite (fst w) (snd w) s) s ws)
  = out s ++ map write_event ws.
Proof.
  revert s. induction ws as [|w ws IH]; intros s; cbn.
  - by rewrite app_nil_r.
  - rewrite IH. cbn. by rewrite <- app_assoc.
Qed.

Lemma pins_foldl_writes ws s :
  pins (foldl (fun s w => digitalWrite (fst w) (snd w) s) s ws)
  = foldl (fun m w => <[fst w := negb (snd w =? LOW)]> m) (pins s) ws.
Proof.
  revert s. induction ws as [|w ws IH]; intros s; cbn; [done|].
  by rewrite IH.
Qed.

Lemma seqZ_0_6 : seqZ 0 6 = [0; 1; 2; 3; 4; 5].
Proof. reflexivity. Qed.

Lemma seqZ_0_5 : seqZ 0 5 = [0; 1; 2; 3; 4].
Proof. reflexivity. Qed.

Lemma led_writes_events t : map write_event (led_writes t) = led_events t.
Proof.
  unfold led_writes, led_events, write_event.
  rewrite seqZ_0_6, seqZ_0_5. cbn.
  by rewrite !bitRead_testbit by lia.
Qed.

Ltac pin_lookup :=
  rewrite seqZ_0_6, seqZ_0_5;
  unfold lowestHourPin, lowestMinPin, lowestSecPin, lowestPin;
  cbn -[Z.testbit]; repeat (rewrite lookup_insert_ne by lia);
  rewrite lookup_insert_eq; f_equal; apply bitRead_testbit; lia.

(** C8, as amended.  [led_display] writes exactly when the subseconds are 0
    or 1000.  It then sends the 17 writes of [led_events], which leave bit
    [i] of the seconds on pin [lowestSecPin + i] (i < 6), bit [i] of the
    minutes on pin [lowestMinPin + i] (i < 6) and bit [i] of the hours on
    pin [lowestHourPin + i] (i < 5).  At every other subsecond value it
    changes nothing. *)
Theorem led_display_writes (t : timeStruct) (s : State) :
  (milliseconds t = 0 \/ milliseconds t = 1000 ->
     out (led_display t s) = out s ++ led_events t /\
     (forall i, 0 <= i < 6 ->
        pins (led_display t s) !! (lowestSecPin + i)
        = Some (Z.testbit (seconds t) i)) /\
     (forall i, 0 <= i < 6 ->
        pins (led_display t s) !! (lowestMinPin + i)
        = Some (Z.testbit (minutes t) i)) /\
     (forall i, 0 <= i < 5 ->
        pins (led_display t s) !! (lowestHourPin + i)
        = Some (Z.testbit (hours t) i))) /\
  (milliseconds t <> 0 -> milliseconds t <> 1000 -> led_display t s = s).
Proof.
  split.
  - intros Hms.
    assert (Hc : (milliseconds t =? 0) || (milliseconds t =? 1000) = true).
    { destruct Hms as [-> | ->]; reflexivity. }
    unfold led_display. rewrite Hc.
    rewrite out_foldl_writes, led_writes_events, pins_foldl_writes.
    unfold led_writes.
    split; [done|]. split; [|split]; intros i Hi.
    + assert (Hcase : i = 0 \/ i = 1 \/ i = 2 \/ i = 3 \/ i = 4 \/ i = 5) by lia.
      destruct Hcase as [-> | [-> | [-> | [-> | [-> | ->]]]]]; pin_lookup.
    + assert (Hcase : i = 0 \/ i = 1 \/ i = 2 \/ i = 3 \/ i = 4 \/ i = 5) by lia.
      destruct Hcase as [-> | [-> | [-> | [-> | [-> | ->]]]]]; pin_lookup.
    + assert (Hcase : i = 0 \/ i = 1 \/ i = 2 \/ i = 3 \/ i = 4) by lia.
      destruct Hcase as [-> | [-> | [-> | [-> | ->]]]]; pin_lookup.
  - intros H0 H1. unfold led_display.
    destruct (Z.eqb_spec (milliseconds t) 0); [done|].
    by destruct (Z.eqb_spec (milliseconds t) 1000).
Qed.

(** The theorem at 12:34:56.000 from the start-up state. *)
Lemma led_display_writes_witness :
  out (led_display (mkTime 12 34 56 0) init)
  = out init ++ led_events (mkTime 12 34 56 0) /\
  pins (led_display (mkTime 12 34 56 0) init) !! (lowestSecPin + 3) = Some true /\
  pins (led_display (mkTime 12 34 56 0) init) !! (lowestMinPin + 0) = Some false /\
  pins (led_display (mkTime 12 34 56 0) init) !! (lowestHourPin + 2) = Some true /\
  led_display (mkTime 12 34 56 8) init = init.
Proof.
  destruct (led_display_writes (mkTime 12 34 56 0) init) as [Hon _].
  destruct (led_display_writes (mkTime 12 34 56 8) init) as [_ Hoff].
  destruct (Hon (or_introl eq_refl)) as (Ho & Hs & Hm & Hh).
  split; [exact Ho|]. split; [apply (Hs 3); lia|].
  split; [apply (Hm 0); lia|]. split; [apply (Hh 2); lia|].
  apply Hoff; cbn; lia.
Defined.

(** C8 as stated says nothing is written unless the subseconds are 0; at
    1000, the value the countdown leaves after a borrow, the pins are
    written all the same. *)
Lemma led_display_at_1000 :
  milliseconds (mkTime 0 0 59 1000) <> 0 /\
  out (led_display (mkTime 0 0 59 1000) init)
  = out init ++ led_events (mkTime 0 0 59 1000) /\
  out (led_display (mkTime 0 0 59 1000) init) <> out init.
Proof.
  split; [cbn; lia|]. split; [reflexivity|]. vm_compute. discriminate.
Qed.

(** ** Peripheral calls leave the globals alone *)

Lemma io_only_refl s : io_only s s.
Proof. exists (pins s), (out s). by destruct s. Qed.

Lemma io_only_trans s1 s2 s3 : io_only s1 s2 -> io_only s2 s3 -> io_only s1 s3.
Proof. intros (p & o & ->) (p' & o' & ->). by exists p', o'. Qed.

Lemma digitalWrite_io pin val s : io_only s (digitalWrite pin val s).
Proof. by eexists _, _. Qed.

Lemma lcd_setCursor_io c r s : io_only s (lcd_setCursor c r s).
Proof. exists (pins s), (out s ++ [LcdSetCursor c r]). by destruct s. Qed.

Lemma lcd_print_io text s : io_only s (lcd_print text s).
Proof. exists (pins s), (out s ++ [LcdPrint text]). by destruct s. Qed.

Lemma lcd_print_int_io n s : io_only s (lcd_print_int n s).
Proof. exists (pins s), (out s ++ [LcdPrintInt n]). by destruct s. Qed.

Lemma foldl_io {A} (f : State -> A -> State) (l : list A) :
  (forall s x, io_only s (f s x)) -> forall s, io_only s (foldl f s l).
Proof.
  intros Hf. induction l as [|x l IH]; intros s; cbn.
  - apply io_only_refl.
  - eapply io_only_trans; [apply Hf | apply IH].
Qed.

Lemma write_all_leds_io val s : io_only s (write_all_leds val s).
Proof. apply foldl_io. intros. apply digitalWrite_io. Qed.

Lemma led_display_io t s : io_only s (led_display t s).
Proof.
  unfold led_display. case_match; [|apply io_only_refl].
  apply foldl_io. intros. apply digitalWrite_io.
Qed.

Lemma print_mode_label_io s : io_only s (print_mode_label s).
Proof.
  unfold print_mode_label.
  repeat case_match; auto using lcd_print_io, io_only_refl.
Qed.

Lemma update_lcd_io t s : io_only s (update_lcd t s).
Proof.
  unfold update_lcd.
  repeat first
    [ apply io_only_refl
    | eapply io_only_trans; [|apply lcd_print_int_io]
    | eapply io_only_trans; [|apply lcd_print_io]
    | eapply io_only_trans; [|apply lcd_setCursor_io]
    | case_match ].
Qed.

Arguments digitalWrite : simpl never.
Arguments lcd_setCursor : simpl never.
Arguments lcd_print : simpl never.
Arguments lcd_print_int : simpl never.
Arguments write_all_leds : simpl never.
Arguments print_mode_label : simpl never.
Arguments led_display : simpl never.
Arguments update_lcd : simpl never.
Arguments count_time : simpl never.
Arguments retreat : simpl never.
Arguments increment_segment : simpl never.
Arguments clear_segment : simpl never.
Arguments zero_fields : simpl never.
Arguments timer_sum : simpl never.

(** Replace every peripheral call in the goal by an update of the pins and
    of the log. *)
Ltac abstract_io :=
  repeat match goal with
  | |- context [led_display ?t ?s] =>
      destruct (led_display_io t s) as (? & ? & ->)
  | |- context [update_lcd ?t ?s] =>
      destruct (update_lcd_io t s) as (? & ? & ->)
  | |- context [write_all_leds ?v ?s] =>
      destruct (write_all_leds_io v s) as (? & ? & ->)
  | |- context [print_mode_label ?s] =>
      destruct (print_mode_label_io s) as (? & ? & ->)
  | |- context [lcd_setCursor ?c ?r ?s] =>
      destruct (lcd_setCursor_io c r s) as (? & ? & ->)
  | |- context [lcd_print ?x ?s] =>
      destruct (lcd_print_io x s) as (? & ? & ->)
  end.

(** Push the field updates of the state through the projections. *)
Ltac simpl_state :=
  cbv beta iota delta
    [with_timeOfDay with_stopWatchTime with_timer with_modeNumber
     with_toggleButtonRelease with_f1ButtonRelease with_f2ButtonRelease
     with_f3ButtonRelease with_setButtonRelease with_increment with_segment
     with_isSettingTime with_isStopwatchCounting with_isTimerCounting
     with_flash with_pins with_out put_time get_time upd_time
     timeOfDay stopWatchTime timer modeNumber toggleButtonRelease
     f1ButtonRelease f2ButtonRelease f3ButtonRelease setButtonRelease
     increment segment isSettingTime isStopwatchCounting isTimerCounting
     flash pins out];
  cbn -[int_add int_sub int_rem].

(** Case on the tests of a block, innermost first. *)
Ltac case_tests := repeat (case_inner; simpl_state).

(** ** What each block can change

    Each lemma names the globals a block may assign; every other global is
    the one of the state the block started from. *)

Ltac open_ex := repeat match goal with |- ex _ => eexists end.

Ltac solve_changes :=
  cbv zeta; abstract_io; simpl_state; case_tests;
  open_ex; simpl_state; reflexivity.

Lemma set_time_select_changes inp s :
  exists c sg,
    set_time_select inp s = with_f3ButtonRelease c (with_segment sg s).
Proof.
  unfold set_time_select. destruct s, inp as [b0 b1 b2 b3 []]; solve_changes.
Qed.

Lemma set_time_clear_changes r inp s :
  exists t b p o,
    set_time_clear r inp s
    = put_time r t (with_f2ButtonRelease b (with_out o (with_pins p s))).
Proof.
  unfold set_time_clear, upd_time.
  destruct s, r, inp as [b0 b1 b2 [] b4]; solve_changes.
Qed.

Lemma set_time_increment_changes r inp s :
  exists t a i p o,
    set_time_increment r inp s
    = put_time r t (with_f1ButtonRelease a (with_increment i
        (with_out o (with_pins p s)))).
Proof.
  unfold set_time_increment, upd_time.
  destruct s, r, inp as [b0 b1 [] b3 b4]; solve_changes.
Qed.

(** [set_time]: the struct behind the reference, the three button latches,
    [increment], [segment] and the peripherals. *)
Lemma set_time_changes r inp s :
  exists t a b c i sg p o,
    set_time r inp s
    = put_time r t
        (mkState (timeOfDay s) (stopWatchTime s) (timer s) (modeNumber s)
           (toggleButtonRelease s) a b c (setButtonRelease s) i sg
           (isSettingTime s) (isStopwatchCounting s) (isTimerCounting s)
           (flash s) p o).
Proof.
  unfold set_time. cbv zeta.
  destruct (set_time_increment_changes r inp
              (set_time_clear r inp (set_time_select inp
                 (upd_time r (set_milliseconds 0) s))))
    as (t3 & a & i & p3 & o3 & ->).
  destruct (set_time_clear_changes r inp (set_time_select inp
              (upd_time r (set_milliseconds 0) s)))
    as (t2 & b & p2 & o2 & ->).
  destruct (set_time_select_changes inp (upd_time r (set_milliseconds 0) s))
    as (c & sg & ->).
  destruct s, r; open_ex; simpl_state; reflexivity.
Qed.

Lemma stopwatch_start_stop_changes inp s :
  exists a cs,
    stopwatch_start_stop inp s
    = with_f1ButtonRelease a (with_isStopwatchCounting cs s).
Proof.
  unfold stopwatch_start_stop. destruct s, inp as [b0 b1 [] b3 b4]; solve_changes.
Qed.

Lemma stopwatch_clear_changes inp s :
  exists sw b cs p o,
    stopwatch_clear inp s
    = with_stopWatchTime sw (with_f2ButtonRelease b
        (with_isStopwatchCounting cs (with_out o (with_pins p s)))).
Proof.
  unfold stopwatch_clear. destruct s, inp as [b0 b1 b2 [] b4]; solve_changes.
Qed.

Lemma stopwatch_count_changes s :
  exists sw p o,
    stopwatch_count s = with_stopWatchTime sw (with_out o (with_pins p s)).
Proof. unfold stopwatch_count. destruct s; solve_changes. Qed.

Lemma timer_start_stop_changes inp s :
  exists a ct,
    timer_start_stop inp s = with_f1ButtonRelease a (with_isTimerCounting ct s).
Proof.
  unfold timer_start_stop. destruct s, inp as [b0 b1 [] b3 b4]; solve_changes.
Qed.

Lemma timer_clear_changes inp s :
  exists tm a b ct,
    timer_clear inp s
    = with_timer tm (with_f1ButtonRelease a (with_f2ButtonRelease b
        (with_isTimerCounting ct s))).
Proof.
  unfold timer_clear. destruct s, inp as [b0 b1 b2 [] b4]; solve_changes.
Qed.

Lemma timer_flash_changes s :
  exists fl p o, timer_flash s = with_flash fl (with_out o (with_pins p s)).
Proof. unfold timer_flash. destruct s; solve_changes. Qed.

Lemma timer_count_changes s :
  exists tm p o, timer_count s = with_timer tm (with_out o (with_pins p s)).
Proof. unfold timer_count. destruct s; solve_changes. Qed.

(** Replace the calls of the blocks above by the updates they amount to. *)
Ltac abstract_calls :=
  repeat match goal with
  | |- context [set_time ?r ?i ?s] =>
      destruct (set_time_changes r i s) as (? & ? & ? & ? & ? & ? & ? & ? & ->)
  | |- context [stopwatch_count ?s] =>
      destruct (stopwatch_count_changes s) as (? & ? & ? & ->)
  | |- context [stopwatch_clear ?i ?s] =>
      destruct (stopwatch_clear_changes i s) as (? & ? & ? & ? & ? & ->)
  | |- context [stopwatch_start_stop ?i ?s] =>
      destruct (stopwatch_start_stop_changes i s) as (? & ? & ->)
  | |- context [timer_flash ?s] =>
      destruct (timer_flash_changes s) as (? & ? & ? & ->)
  | |- context [timer_count ?s] =>
      destruct (timer_count_changes s) as (? & ? & ? & ->)
  | |- context [timer_clear ?i ?s] =>
      destruct (timer_clear_changes i s) as (? & ? & ? & ? & ->)
  | |- context [timer_start_stop ?i ?s] =>
      destruct (timer_start_stop_changes i s) as (? & ? & ->)
  end.

Ltac solve_changes' :=
  cbv zeta; abstract_calls; abstract_io; simpl_state; case_tests;
  abstract_calls; abstract_io; simpl_state;
  open_ex; simpl_state; reflexivity.

(** [run_stopwatch]: the stopwatch, its running flag, the latches of func1
    and func2 and the peripherals. *)
Lemma run_stopwatch_changes inp s :
  exists sw a b cs p o,
    run_stopwatch inp s
    = mkState (timeOfDay s) sw (timer s) (modeNumber s)
        (toggleButtonRelease s) a b (f3ButtonRelease s) (setButtonRelease s)
        (increment s) (segment s) (isSettingTime s) cs (isTimerCounting s)
        (flash s) p o.
Proof. unfold run_stopwatch. destruct s. solve_changes'. Qed.

Lemma timer_buttons_changes inp s :
  exists tm a b ct,
    timer_buttons inp s
    = with_timer tm (with_f1ButtonRelease a (with_f2ButtonRelease b
        (with_isTimerCounting ct s))).
Proof. unfold timer_buttons. destruct s. solve_changes'. Qed.

(** [run_timer]: the countdown, its running flag, [flash], what [set_time]
    may change, and the peripherals. *)
Lemma run_timer_changes inp s :
  exists tm a b c i sg ct fl p o,
    run_timer inp s
    = mkState (timeOfDay s) (stopWatchTime s) tm (modeNumber s)
        (toggleButtonRelease s) a b c (setButtonRelease s) i sg
        (isSettingTime s) (isStopwatchCounting s) ct fl p o.
Proof.
  unfold run_timer. cbv zeta.
  destruct (timer_buttons_changes inp s) as (? & ? & ? & ? & ->).
  destruct s. simpl_state. solve_changes'.
Qed.

(** The set button: the countdown and its running flag (cleared on
    entering the editing of the timer), the editing flag, [increment],
    [segment], the latch of the button and the peripherals. *)
Lemma set_button_block_changes inp s :
  exists tm sb i sg ist ct p o,
    set_button_block inp s
    = mkState (timeOfDay s) (stopWatchTime s) tm (modeNumber s)
        (toggleButtonRelease s) (f1ButtonRelease s) (f2ButtonRelease s)
        (f3ButtonRelease s) sb i sg ist (isStopwatchCounting s) ct
        (flash s) p o.
Proof.
  unfold set_button_block. destruct s, inp as [[] b1 b2 b3 b4].
  all: solve_changes'.
Qed.

(** The background clock: the time of day, what [set_time] may change, and
    the peripherals. *)
Lemma clock_block_changes inp s :
  exists tod a b c i sg p o,
    clock_block inp s
    = mkState tod (stopWatchTime s) (timer s) (modeNumber s)
        (toggleButtonRelease s) a b c (setButtonRelease s) i sg
        (isSettingTime s) (isStopwatchCounting s) (isTimerCounting s)
        (flash s) p o.
Proof.
  unfold clock_block. cbv zeta. destruct s. simpl_state.
  case_inner; solve_changes'.
Qed.

(** The mode toggle: the mode, the editing flag, [flash], the latch of the
    button and the peripherals. *)
Lemma toggle_block_changes inp s :
  exists m tg ist fl p o,
    toggle_block inp s
    = mkState (timeOfDay s) (stopWatchTime s) (timer s) m tg
        (f1ButtonRelease s) (f2ButtonRelease s) (f3ButtonRelease s)
        (setButtonRelease s) (increment s) (segment s) ist
        (isStopwatchCounting s) (isTimerCounting s) fl p o.
Proof.
  unfold toggle_block. destruct s, inp as [b0 [] b2 b3 b4].
  all: solve_changes'.
Qed.

(** The final switch: everything but the time of day, the mode, the
    editing flag and the latches of the set and toggle buttons. *)
Lemma mode_switch_changes inp s :
  exists sw tm a b c i sg cs ct fl p o,
    mode_switch inp s
    = mkState (timeOfDay s) sw tm (modeNumber s) (toggleButtonRelease s)
        a b c (setButtonRelease s) i sg (isSettingTime s) cs ct fl p o.
Proof.
  unfold mode_switch.
  destruct (modeNumber s =? 0);
    [destruct (led_display_io (timeOfDay s) s) as (? & ? & ->)|].
  2: destruct (modeNumber s =? 1);
    [destruct (run_stopwatch_changes inp s) as (? & ? & ? & ? & ? & ? & ->)|].
  3: destruct (modeNumber s =? 2);
    [destruct (run_timer_changes inp s)
       as (? & ? & ? & ? & ? & ? & ? & ? & ? & ? & ->)|].
  all: destruct s; open_ex; simpl_state; reflexivity.
Qed.

(** ** Runs *)

Lemma reachable_run inps s : reachable s -> reachable (run inps s).
Proof.
  revert s. induction inps as [|inp rest IH]; intros s Hs; cbn; [done|].
  apply IH. by constructor.
Qed.

Lemma loop_after_toggle inp s : loop inp s = mode_switch inp (after_toggle inp s).
Proof. reflexivity. Qed.

(** What reaches the toggle block of the globals it reads and writes. *)
Lemma before_toggle_control inp s :
  modeNumber (before_toggle inp s) = modeNumber s /\
  toggleButtonRelease (before_toggle inp s) = toggleButtonRelease s /\
  isSettingTime (before_toggle inp s) = isSettingTime (set_button_block inp s).
Proof.
  unfold before_toggle.
  destruct (clock_block_changes inp (set_button_block inp s))
    as (? & ? & ? & ? & ? & ? & ? & ? & ->).
  destruct (set_button_block_changes inp s)
    as (? & ? & ? & ? & ? & ? & ? & ? & ->).
  by destruct s.
Qed.

Lemma mode_switch_control inp s :
  modeNumber (mode_switch inp s) = modeNumber s /\
  isSettingTime (mode_switch inp s) = isSettingTime s /\
  toggleButtonRelease (mode_switch inp s) = toggleButtonRelease s /\
  timeOfDay (mode_switch inp s) = timeOfDay s.
Proof.
  destruct (mode_switch_changes inp s)
    as (? & ? & ? & ? & ? & ? & ? & ? & ? & ? & ? & ? & ->).
  by destruct s.
Qed.

(** ** The mode toggle *)

Lemma toggle_block_release inp s :
  toggleButton inp = false -> toggleButtonRelease s = 1 ->
  toggle_block inp s
  = with_flash 0 (with_toggleButtonRelease 0 (with_isSettingTime 0
      (write_all_leds LOW (print_mode_label (lcd_setCursor 0 0
         (with_modeNumber (int_rem (int_add (modeNumber s) 1) 3) s)))))).
Proof.
  intros Hlow Hlatch. unfold toggle_block.
  destruct s, inp as [b0 b1 b2 b3 b4]. cbn in Hlow, Hlatch. subst.
  reflexivity.
Qed.

Lemma toggle_block_no_release inp s :
  toggle_fires inp s = false ->
  toggle_block inp s = s \/ toggle_block inp s = with_toggleButtonRelease 1 s.
Proof.
  unfold toggle_fires, toggle_block.
  destruct s, inp as [b0 [] b2 b3 b4]; cbn; intros Hf.
  - by right.
  - left. by rewrite Hf.
Qed.

Lemma mode_step m : 0 <= m <= 2 -> int_rem (int_add m 1) 3 = (m + 1) mod 3.
Proof.
  intros Hm. rewrite int_add_id by lia. unfold int_rem.
  apply Z.rem_mod_nonneg; lia.
Qed.

Lemma seqZ_leds :
  seqZ lowestPin (highestPin - lowestPin + 1)
  = [22; 23; 24; 25; 26; 27; 28; 29; 30; 31; 32; 33; 34; 35; 36; 37; 38].
Proof. reflexivity. Qed.

Lemma write_all_leds_pins val s p :
  lowestPin <= p <= highestPin ->
  pins (write_all_leds val s) !! p = Some (negb (val =? LOW)).
Proof.
  unfold lowestPin, highestPin. intros Hp.
  unfold write_all_leds. rewrite seqZ_leds.
  assert (Hfold : forall l s0,
    pins (foldl (fun s1 thisPin => digitalWrite thisPin val s1) s0 l)
    = foldl (fun m q => <[q := negb (val =? LOW)]> m) (pins s0) l).
  { induction l as [|q l IH]; intros s0; [done|]. cbn. by rewrite IH. }
  rewrite Hfold. cbn.
  assert (Hcase : p = 22 \/ p = 23 \/ p = 24 \/ p = 25 \/ p = 26 \/ p = 27 \/
                  p = 28 \/ p = 29 \/ p = 30 \/ p = 31 \/ p = 32 \/ p = 33 \/
                  p = 34 \/ p = 35 \/ p = 36 \/ p = 37 \/ p = 38) by lia.
  repeat (destruct Hcase as [-> | Hcase]); [..|subst p];
    repeat (rewrite lookup_insert_ne by lia); by rewrite lookup_insert_eq.
Qed.

Lemma toggle_block_mode_range inp s :
  0 <= modeNumber s <= 2 -> 0 <= modeNumber (toggle_block inp s) <= 2.
Proof.
  intros Hm. destruct (toggle_fires inp s) eqn:Hf.
  - unfold toggle_fires in Hf. apply andb_true_iff in Hf as [Hl Hr].
    apply negb_true_iff in Hl. apply Z.eqb_eq in Hr.
    rewrite toggle_block_release by done. abstract_io.
    destruct s. simpl_state. cbn in Hm. rewrite mode_step by lia. zlia.
  - by destruct (toggle_block_no_release inp s Hf) as [-> | ->]; destruct s.
Qed.

Lemma loop_mode_range inp s :
  0 <= modeNumber s <= 2 -> 0 <= modeNumber (loop inp s) <= 2.
Proof.
  intros Hm. rewrite loop_after_toggle.
  destruct (mode_switch_control inp (after_toggle inp s)) as (-> & _).
  unfold after_toggle. apply toggle_block_mode_range.
  by destruct (before_toggle_control inp s) as (-> & _).
Qed.

Lemma reachable_mode_range s : reachable s -> 0 <= modeNumber s <= 2.
Proof.
  induction 1 as [|inp s _ IH]; [|by apply loop_mode_range].
  change (modeNumber init) with 0. lia.
Qed.

Lemma toggle_fires_before inp s :
  toggle_fires inp (before_toggle inp s) = toggle_fires inp s.
Proof.
  unfold toggle_fires.
  by destruct (before_toggle_control inp s) as (_ & -> & _).
Qed.

Lemma toggle_fires_true inp s :
  toggle_fires inp s = true <->
  toggleButton inp = false /\ toggleButtonRelease s = 1.
Proof.
  unfold toggle_fires.
  rewrite andb_true_iff, negb_true_iff, Z.eqb_eq. tauto.
Qed.

Lemma after_toggle_release inp s :
  toggleButton inp = false -> toggleButtonRelease s = 1 ->
  after_toggle inp s
  = with_flash 0 (with_toggleButtonRelease 0 (with_isSettingTime 0
      (write_all_leds LOW (print_mode_label (lcd_setCursor 0 0
         (with_modeNumber (int_rem (int_add (modeNumber s) 1) 3)
            (before_toggle inp s))))))).
Proof.
  intros Hlow Hlatch. unfold after_toggle.
  destruct (before_toggle_control inp s) as (Hm & Hl & _).
  rewrite toggle_block_release by congruence. by rewrite Hm.
Qed.

Lemma loop_mode inp s :
  0 <= modeNumber s <= 2 ->
  modeNumber (loop inp s)
  = (modeNumber s + (if toggle_fires inp s then 1 else 0)) mod 3.
Proof.
  intros Hm. rewrite loop_after_toggle.
  destruct (mode_switch_control inp (after_toggle inp s)) as (-> & _).
  destruct (toggle_fires inp s) eqn:Hf.
  - apply toggle_fires_true in Hf as [Hlow Hlatch].
    rewrite after_toggle_release by done. abstract_io.
    destruct (before_toggle inp s). simpl_state. by apply mode_step.
  - unfold after_toggle. rewrite <- toggle_fires_before in Hf.
    destruct (before_toggle_control inp s) as (Hm' & _).
    destruct (toggle_block_no_release _ _ Hf) as [-> | ->].
    + rewrite Hm'. zlia.
    + destruct (before_toggle inp s). cbn in *. zlia.
Qed.

Lemma run_mode inps s :
  0 <= modeNumber s <= 2 ->
  modeNumber (run inps s)
  = (modeNumber s + Z.of_nat (toggle_events inps s)) mod 3.
Proof.
  revert s. induction inps as [|inp rest IH]; intros s Hm; cbn [run toggle_events].
  - zlia.
  - rewrite IH by (by apply loop_mode_range). rewrite loop_mode by done.
    destruct (toggle_fires inp s); zlia.
Qed.

(** The state the toggle block leaves on a release event, field by field. *)
Lemma toggle_release_fields m s1 :
  let s2 := with_flash 0 (with_toggleButtonRelease 0 (with_isSettingTime 0
              (write_all_leds LOW (print_mode_label (lcd_setCursor 0 0
                 (with_modeNumber m s1)))))) in
  modeNumber s2 = m /\
  isSettingTime s2 = 0 /\ flash s2 = 0 /\ toggleButtonRelease s2 = 0 /\
  (forall p, lowestPin <= p <= highestPin -> pins s2 !! p = Some false) /\
  isStopwatchCounting s2 = isStopwatchCounting s1 /\
  isTimerCounting s2 = isTimerCounting s1 /\
  increment s2 = increment s1.
Proof.
  intros s2.
  assert (Hpins : forall p, lowestPin <= p <= highestPin ->
                            pins s2 !! p = Some false).
  { intros p Hp. subst s2.
    pose proof (write_all_leds_pins LOW (print_mode_label (lcd_setCursor 0 0
                  (with_modeNumber m s1))) p Hp) as Hw.
    revert Hw. generalize (write_all_leds LOW (print_mode_label
                 (lcd_setCursor 0 0 (with_modeNumber m s1)))).
    by intros []. }
  split; [|split; [|split; [|split; [|split; [exact Hpins|]]]]].
  all: clear Hpins; subst s2; abstract_io; destruct s1; simpl_state; done.
Qed.

(** C3, as amended.  When the release event of the mode toggle fires in a
    tick from a reachable state, the toggle block moves the mode one step
    along 0 -> 1 -> 2 -> 0, clears the editing flag, [flash] and the latch
    of the button, and writes LOW to every LED pin; it leaves the running
    flags of the stopwatch and of the timer as they were.  The mode and the
    cleared editing flag and latch are those of the end of the tick.  Over
    any run, three such events bring the mode back to where it was. *)
Theorem toggle_release_event (inp : Inputs) (s : State) :
  reachable s ->
  toggleButton inp = false -> toggleButtonRelease s = 1 ->
  (modeNumber (after_toggle inp s) = (modeNumber s + 1) mod 3 /\
   isSettingTime (after_toggle inp s) = 0 /\
   flash (after_toggle inp s) = 0 /\
   toggleButtonRelease (after_toggle inp s) = 0 /\
   (forall p, lowestPin <= p <= highestPin ->
      pins (after_toggle inp s) !! p = Some false)) /\
  (isStopwatchCounting (after_toggle inp s)
   = isStopwatchCounting (before_toggle inp s) /\
   isTimerCounting (after_toggle inp s)
   = isTimerCounting (before_toggle inp s)) /\
  (modeNumber (loop inp s) = (modeNumber s + 1) mod 3 /\
   isSettingTime (loop inp s) = 0 /\
   toggleButtonRelease (loop inp s) = 0) /\
  (forall inps, toggle_events inps s = 3%nat ->
     modeNumber (run inps s) = modeNumber s).
Proof.
  intros Hreach Hlow Hlatch.
  pose proof (reachable_mode_range s Hreach) as Hm.
  rewrite loop_after_toggle.
  destruct (mode_switch_control inp (after_toggle inp s)) as (-> & -> & -> & _).
  rewrite after_toggle_release, mode_step by done.
  destruct (toggle_release_fields ((modeNumber s + 1) mod 3)
              (before_toggle inp s))
    as (H1 & H2 & H3 & H4 & H5 & H6 & H7 & H8).
  split; [done|]. split; [done|]. split; [done|].
  intros inps H3ev. rewrite run_mode, H3ev by done. zlia.
Qed.

(** The theorem on a run from start-up: the stopwatch is started, then the
    toggle is pushed; its release is the event. *)
Lemma toggle_release_event_witness :
  toggleButtonRelease stopwatch_running = 1 /\
  modeNumber (after_toggle idle stopwatch_running)
  = (modeNumber stopwatch_running + 1) mod 3 /\
  isStopwatchCounting (after_toggle idle stopwatch_running)
  = isStopwatchCounting (before_toggle idle stopwatch_running) /\
  modeNumber (loop idle stopwatch_running)
  = (modeNumber stopwatch_running + 1) mod 3.
Proof.
  assert (Hreach : reachable stopwatch_running)
    by (apply reachable_run; constructor).
  assert (Hlatch : toggleButtonRelease stopwatch_running = 1)
    by (vm_compute; reflexivity).
  destruct (toggle_release_event idle stopwatch_running Hreach eq_refl Hlatch)
    as ((Hmode & _) & (Hsw & _) & (Hloop & _) & _).
  split; [exact Hlatch|]. split; [exact Hmode|]. split; [exact Hsw|].
  exact Hloop.
Defined.

(** C3 as stated has the toggle stop a running stopwatch.  Start the
    stopwatch, push the toggle and let it go: the event fires, the mode
    goes from Stopwatch to Timer, and the stopwatch flag still reads 1,
    both right after the toggle block and at the end of the tick. *)
Lemma toggle_leaves_stopwatch_running :
  reachable stopwatch_running /\
  toggle_fires idle stopwatch_running = true /\
  modeNumber stopwatch_running = 1 /\
  isStopwatchCounting stopwatch_running = 1 /\
  modeNumber (loop idle stopwatch_running) = 2 /\
  isStopwatchCounting (after_toggle idle stopwatch_running) = 1 /\
  isStopwatchCounting (loop idle stopwatch_running) = 1.
Proof.
  split; [apply reachable_run; constructor|].
  vm_compute. repeat split.
Qed.

(** ** What the blocks do to the three Time Values *)

Lemma io_only_times s s' :
  io_only s s' ->
  timeOfDay s' = timeOfDay s /\ stopWatchTime s' = stopWatchTime s /\
  timer s' = timer s.
Proof. intros (p & o & ->). by destruct s. Qed.

Ltac solve_values :=
  cbv zeta; abstract_io; simpl_state; case_tests; simpl_state; auto.

Lemma set_time_clear_value r inp s :
  get_time r (set_time_clear r inp s) = get_time r s \/
  get_time r (set_time_clear r inp s) = clear_segment (segment s) (get_time r s).
Proof.
  unfold set_time_clear.
  destruct s, r, inp as [b0 b1 b2 [] b4]; solve_values.
Qed.

Lemma set_time_increment_value r inp s :
  get_time r (set_time_increment r inp s) = get_time r s \/
  get_time r (set_time_increment r inp s)
  = increment_segment (segment s) (get_time r s).
Proof.
  unfold set_time_increment.
  destruct s, r, inp as [b0 b1 [] b3 b4]; solve_values.
Qed.

Lemma set_time_select_value r inp s :
  get_time r (set_time_select inp s) = get_time r s.
Proof.
  destruct (set_time_select_changes inp s) as (? & ? & ->). by destruct s, r.
Qed.

(** [set_time] zeroes the subseconds, then clears a unit or not, then
    increments a unit or not. *)
Lemma set_time_value r inp s :
  exists f g,
    (f = id \/ exists seg, f = clear_segment seg) /\
    (g = id \/ exists seg, g = increment_segment seg) /\
    get_time r (set_time r inp s)
    = g (f (set_milliseconds 0 (get_time r s))).
Proof.
  unfold set_time. cbv zeta.
  set (s1 := upd_time r (set_milliseconds 0) s).
  assert (H1 : get_time r s1 = set_milliseconds 0 (get_time r s)).
  { subst s1. by destruct s, r. }
  clearbody s1.
  pose proof (set_time_select_value r inp s1) as H2.
  set (s2 := set_time_select inp s1) in *. clearbody s2.
  pose proof (set_time_clear_value r inp s2) as H3.
  set (s3 := set_time_clear r inp s2) in *. clearbody s3.
  pose proof (set_time_increment_value r inp s3) as H4.
  destruct H3 as [H3 | H3], H4 as [H4 | H4]; rewrite H4, H3, H2, H1.
  - exists id, id. split; [by left|]. split; [by left|done].
  - exists id, (increment_segment (segment s3)).
    split; [by left|]. split; [right; by eexists|done].
  - exists (clear_segment (segment s2)), id.
    split; [right; by eexists|]. split; [by left|done].
  - exists (clear_segment (segment s2)), (increment_segment (segment s3)).
    split; [right; by eexists|]. split; [right; by eexists|done].
Qed.

Lemma set_time_preserves (Q P : timeStruct -> Prop) r inp s :
  (forall t, Q t -> P (set_milliseconds 0 t)) ->
  (forall seg t, P t -> P (clear_segment seg t)) ->
  (forall seg t, P t -> P (increment_segment seg t)) ->
  Q (get_time r s) -> P (get_time r (set_time r inp s)).
Proof.
  intros H0 Hc Hi HQ.
  destruct (set_time_value r inp s) as (f & g & Hf & Hg & ->).
  destruct Hf as [-> | [seg ->]], Hg as [-> | [seg' ->]]; cbn; auto.
Qed.

Lemma clear_segment_milliseconds seg t :
  milliseconds (clear_segment seg t) = milliseconds t.
Proof. unfold clear_segment. destruct t. by case_tests. Qed.

Lemma increment_segment_milliseconds seg t :
  milliseconds (increment_segment seg t) = milliseconds t.
Proof.
  unfold increment_segment. destruct t. cbn -[int_add int_rem].
  by case_steps.
Qed.

Lemma set_time_milliseconds r inp s :
  milliseconds (get_time r (set_time r inp s)) = 0.
Proof.
  apply (set_time_preserves (fun _ => True) (fun t => milliseconds t = 0));
    [by intros [] | | | done].
  - intros seg t. by rewrite clear_segment_milliseconds.
  - intros seg t. by rewrite increment_segment_milliseconds.
Qed.

Lemma set_button_block_control inp s :
  timeOfDay (set_button_block inp s) = timeOfDay s /\
  stopWatchTime (set_button_block inp s) = stopWatchTime s /\
  modeNumber (set_button_block inp s) = modeNumber s /\
  toggleButtonRelease (set_button_block inp s) = toggleButtonRelease s.
Proof.
  destruct (set_button_block_changes inp s)
    as (? & ? & ? & ? & ? & ? & ? & ? & ->).
  by destruct s.
Qed.

Lemma clock_block_control inp s :
  stopWatchTime (clock_block inp s) = stopWatchTime s /\
  timer (clock_block inp s) = timer s /\
  modeNumber (clock_block inp s) = modeNumber s /\
  isSettingTime (clock_block inp s) = isSettingTime s.
Proof.
  destruct (clock_block_changes inp s) as (? & ? & ? & ? & ? & ? & ? & ? & ->).
  by destruct s.
Qed.

Lemma toggle_block_times inp s :
  timeOfDay (toggle_block inp s) = timeOfDay s /\
  stopWatchTime (toggle_block inp s) = stopWatchTime s /\
  timer (toggle_block inp s) = timer s.
Proof.
  destruct (toggle_block_changes inp s) as (? & ? & ? & ? & ? & ? & ->).
  by destruct s.
Qed.

(** The two arms of the background clock. *)
Lemma clock_block_timeOfDay inp s :
  timeOfDay (clock_block inp s)
  = if negb (isSettingTime s =? 1) || negb (modeNumber s =? 0)
    then count_time (timeOfDay s)
    else timeOfDay (set_time TimeOfDay inp s).
Proof.
  unfold clock_block. cbv zeta.
  destruct (negb (isSettingTime s =? 1) || negb (modeNumber s =? 0)).
  - set (s1 := upd_time TimeOfDay count_time s).
    assert (H1 : timeOfDay s1 = count_time (timeOfDay s))
      by (subst s1; by destruct s).
    clearbody s1. rewrite <- H1.
    destruct (negb (isSettingTime s1 =? 1) && (modeNumber s1 =? 0)); [|done].
    by destruct (io_only_times _ _ (update_lcd_io (timeOfDay s1) s1)) as (-> & _).
  - generalize (set_time TimeOfDay inp s). intros s1.
    destruct (negb (isSettingTime s1 =? 1) && (modeNumber s1 =? 0)); [|done].
    by destruct (io_only_times _ _ (update_lcd_io (timeOfDay s1) s1)) as (-> & _).
Qed.

Lemma loop_timeOfDay inp s :
  timeOfDay (loop inp s)
  = timeOfDay (clock_block inp (set_button_block inp s)).
Proof.
  rewrite loop_after_toggle.
  destruct (mode_switch_control inp (after_toggle inp s)) as (_ & _ & _ & ->).
  unfold after_toggle, before_toggle.
  by destruct (toggle_block_times inp (clock_block inp (set_button_block inp s)))
    as (-> & _).
Qed.

(** C7, as amended.  A tick advances the time of day by one [count_time]
    unless, once the set button has been looked at, the editing flag is 1
    and the mode is Clock; on such a tick [set_time] runs on the time of
    day instead, which is then not advanced and has its subseconds at 0. *)
Theorem loop_time_of_day (inp : Inputs) (s : State) :
  (isSettingTime (set_button_block inp s) <> 1 \/ modeNumber s <> 0 ->
   timeOfDay (loop inp s) = count_time (timeOfDay s)) /\
  (isSettingTime (set_button_block inp s) = 1 -> modeNumber s = 0 ->
   timeOfDay (loop inp s)
   = timeOfDay (set_time TimeOfDay inp (set_button_block inp s)) /\
   milliseconds (timeOfDay (loop inp s)) = 0).
Proof.
  rewrite loop_timeOfDay, clock_block_timeOfDay.
  destruct (set_button_block_control inp s) as (Htod & _ & Hmode & _).
  rewrite Hmode, Htod. split.
  - intros Hcond.
    destruct (Z.eqb_spec (isSettingTime (set_button_block inp s)) 1);
      destruct (Z.eqb_spec (modeNumber s) 0); cbn; try done.
    destruct Hcond; done.
  - intros He Hm. rewrite He, Hm. cbn. split; [done|].
    apply (set_time_milliseconds TimeOfDay).
Qed.

(** The theorem on two ticks: an ordinary first tick from start-up, and the
    tick on which the release of the set button opens the editing of the
    clock. *)
Lemma loop_time_of_day_witness :
  timeOfDay (loop idle init) = count_time (timeOfDay init) /\
  milliseconds (timeOfDay (loop idle set_down)) = 0.
Proof.
  split.
  - apply (proj1 (loop_time_of_day idle init)). left.
    vm_compute. discriminate.
  - apply (proj2 (loop_time_of_day idle set_down)).
    + vm_compute. reflexivity.
    + vm_compute. reflexivity.
Defined.

(** C7 as stated has the time of day advance on every tick.  On the tick
    that opens the editing of the clock it goes from 8 ms back to 0,
    where one more [count_time] would have made it 16. *)
Lemma editing_tick_stops_clock :
  reachable set_down /\
  timeOfDay set_down = mkTime 0 0 0 8 /\
  count_time (timeOfDay set_down) = mkTime 0 0 0 16 /\
  timeOfDay (loop idle set_down) = mkTime 0 0 0 0 /\
  timeOfDay (loop idle set_down) <> count_time (timeOfDay set_down).
Proof.
  split; [repeat constructor|].
  vm_compute. split; [done|]. split; [done|]. split; [done|].
  intros H. discriminate H.
Qed.

(** ** Editing and the stopwatch display *)

Lemma set_button_block_edit_inv inp s :
  edit_inv s -> edit_inv (set_button_block inp s).
Proof.
  unfold edit_inv, set_button_block.
  destruct s, inp as [[] b1 b2 b3 b4]; cbv zeta; abstract_io; simpl_state;
    case_tests; simpl_state; intros; lia.
Qed.

(** In Stopwatch mode the set button cannot switch editing on. *)
Lemma set_button_block_stopwatch inp s :
  modeNumber s = 1 -> isSettingTime s <> 1 ->
  isSettingTime (set_button_block inp s) <> 1.
Proof.
  unfold set_button_block.
  destruct s, inp as [[] b1 b2 b3 b4]; cbv zeta; abstract_io; simpl_state;
    case_tests; simpl_state; intros; lia.
Qed.

Lemma toggle_block_isSettingTime inp s :
  (toggle_fires inp s = true -> isSettingTime (toggle_block inp s) = 0) /\
  (toggle_fires inp s = false ->
   isSettingTime (toggle_block inp s) = isSettingTime s /\
   modeNumber (toggle_block inp s) = modeNumber s).
Proof.
  split; intros Hf.
  - apply toggle_fires_true in Hf as [Hlow Hlatch].
    rewrite toggle_block_release by done.
    by destruct (toggle_release_fields (int_rem (int_add (modeNumber s) 1) 3) s)
      as (_ & -> & _).
  - by destruct (toggle_block_no_release inp s Hf) as [-> | ->]; destruct s.
Qed.

Lemma toggle_block_edit_inv inp s :
  edit_inv s -> edit_inv (toggle_block inp s).
Proof.
  unfold edit_inv. intros Hs.
  destruct (toggle_block_isSettingTime inp s) as [Hfire Hno].
  destruct (toggle_fires inp s).
  - rewrite Hfire by done. lia.
  - destruct Hno as [-> ->]; done.
Qed.

Lemma before_toggle_edit_inv inp s : edit_inv s -> edit_inv (before_toggle inp s).
Proof.
  intros Hs. apply (set_button_block_edit_inv inp) in Hs.
  unfold edit_inv, before_toggle in *.
  by destruct (clock_block_control inp (set_button_block inp s))
    as (_ & _ & -> & ->).
Qed.

Lemma after_toggle_edit_inv inp s : edit_inv s -> edit_inv (after_toggle inp s).
Proof.
  intros Hs. by apply toggle_block_edit_inv, before_toggle_edit_inv.
Qed.

Lemma loop_edit_inv inp s : edit_inv s -> edit_inv (loop inp s).
Proof.
  intros Hs. apply (after_toggle_edit_inv inp) in Hs.
  unfold edit_inv in *. rewrite loop_after_toggle.
  by destruct (mode_switch_control inp (after_toggle inp s)) as (-> & -> & _).
Qed.

Lemma reachable_edit_inv s : reachable s -> edit_inv s.
Proof.
  induction 1 as [|inp s _ IH]; [|by apply loop_edit_inv].
  unfold edit_inv. change (isSettingTime init) with 0. lia.
Qed.

(** C9.  In every state reached from start-up, an editing flag at 1 means
    the mode is not Stopwatch; the same holds inside the next tick, after
    the set button, before the mode toggle and after it.  In such a state
    showing the stopwatch the set button leaves the flag off, and a tick on
    which the release of the mode toggle fires ends with the flag at 0. *)
Theorem editing_excludes_stopwatch (inp : Inputs) (s : State) :
  reachable s ->
  (isSettingTime s = 1 -> modeNumber s <> 1) /\
  (edit_inv (set_button_block inp s) /\ edit_inv (before_toggle inp s) /\
   edit_inv (after_toggle inp s)) /\
  (modeNumber s = 1 -> isSettingTime (set_button_block inp s) <> 1) /\
  (toggle_fires inp s = true ->
   isSettingTime (after_toggle inp s) = 0 /\ isSettingTime (loop inp s) = 0).
Proof.
  intros Hreach. pose proof (reachable_edit_inv s Hreach) as Hinv.
  split; [exact Hinv|]. split.
  { split; [by apply set_button_block_edit_inv|].
    split; [by apply before_toggle_edit_inv | by apply after_toggle_edit_inv]. }
  split.
  - intros Hm. apply set_button_block_stopwatch; [done|].
    intros He. by apply Hinv.
  - intros Hf. rewrite loop_after_toggle.
    destruct (mode_switch_control inp (after_toggle inp s)) as (_ & -> & _).
    rewrite <- toggle_fires_before in Hf. unfold after_toggle.
    by rewrite (proj1 (toggle_block_isSettingTime inp (before_toggle inp s))).
Qed.

(** The theorem in the state that edits the clock, one push of the set
    button after start-up. *)
Lemma editing_excludes_stopwatch_witness :
  isSettingTime editing_clock = 1 /\ modeNumber editing_clock <> 1.
Proof.
  assert (Hreach : reachable editing_clock)
    by (apply reachable_run; constructor).
  assert (He : isSettingTime editing_clock = 1) by (vm_compute; reflexivity).
  split; [exact He|].
  exact (proj1 (editing_excludes_stopwatch idle editing_clock Hreach) He).
Defined.

(** ** Subseconds while editing *)

Lemma run_timer_editing inp s :
  isSettingTime s <> 0 -> run_timer inp s = set_time Timer inp s.
Proof.
  intros He. unfold run_timer, timer_buttons.
  destruct (Z.eqb_spec (isSettingTime s) 0) as [|_]; [done|].
  cbv zeta. by destruct (Z.eqb_spec (isSettingTime s) 0).
Qed.

Lemma mode_switch_timer inp s :
  modeNumber s = 2 -> mode_switch inp s = run_timer inp s.
Proof. intros Hm. unfold mode_switch. by rewrite Hm. Qed.

(** C10.  [set_time] leaves the subseconds of the struct it edits at 0,
    whatever the buttons do.  So a tick that runs it on the time of day
    ends with the subseconds of the time of day at 0, and a tick that ends
    with the editing flag at 1 ends with the subseconds of the Time Value
    under edit at 0: the time of day in Clock mode, the countdown in Timer
    mode. *)
Theorem editing_zeroes_subseconds (inp : Inputs) (s : State) :
  (forall r, milliseconds (get_time r (set_time r inp s)) = 0) /\
  (isSettingTime (set_button_block inp s) = 1 -> modeNumber s = 0 ->
   milliseconds (timeOfDay (loop inp s)) = 0) /\
  (isSettingTime (loop inp s) = 1 ->
   (modeNumber (loop inp s) = 0 -> milliseconds (timeOfDay (loop inp s)) = 0) /\
   (modeNumber (loop inp s) = 2 -> milliseconds (timer (loop inp s)) = 0)).
Proof.
  split; [intros r; apply set_time_milliseconds|].
  rewrite loop_timeOfDay, clock_block_timeOfDay.
  destruct (set_button_block_control inp s) as (_ & _ & Hm0 & _).
  split.
  { intros He Hm. rewrite He, Hm0, Hm. cbn.
    apply (set_time_milliseconds TimeOfDay). }
  rewrite loop_after_toggle.
  destruct (mode_switch_control inp (after_toggle inp s)) as (-> & -> & _).
  intros He.
  assert (Hf : toggle_fires inp (before_toggle inp s) = false).
  { destruct (toggle_fires inp (before_toggle inp s)) eqn:Hf; [|done].
    apply (proj1 (toggle_block_isSettingTime inp (before_toggle inp s))) in Hf.
    unfold after_toggle in He. lia. }
  destruct (proj2 (toggle_block_isSettingTime inp (before_toggle inp s)) Hf)
    as [He2 Hm2].
  fold (after_toggle inp s) in He2, Hm2. rewrite He2 in He. rewrite Hm2.
  destruct (before_toggle_control inp s) as (Hm1 & _ & He1).
  rewrite Hm1. rewrite He1 in He.
  split; intros Hm.
  - rewrite He, Hm0, Hm. cbn. apply (set_time_milliseconds TimeOfDay).
  - rewrite mode_switch_timer by congruence.
    rewrite run_timer_editing by lia.
    apply (set_time_milliseconds Timer).
Qed.

(** The theorem on the tick that opens the editing of the clock. *)
Lemma editing_zeroes_subseconds_witness :
  isSettingTime (loop idle set_down) = 1 /\
  modeNumber (loop idle set_down) = 0 /\
  milliseconds (timeOfDay (loop idle set_down)) = 0.
Proof.
  assert (He : isSettingTime (loop idle set_down) = 1)
    by (vm_compute; reflexivity).
  assert (Hm : modeNumber (loop idle set_down) = 0)
    by (vm_compute; reflexivity).
  split; [exact He|]. split; [exact Hm|].
  exact (proj1 (proj2 (proj2 (editing_zeroes_subseconds idle set_down)) He) Hm).
Defined.

(** ** The ranges of the Time Values *)

Lemma count_time_tod_ok t : tod_ok t -> tod_ok (count_time t).
Proof.
  destruct t as [h m sec ms]. unfold tod_ok, count_time, TICKRATE. cbn.
  intros (Hh & Hms & Hmod).
  assert (Hms' : ms + 8 <= 1000) by zlia.
  rewrite (int_add_id ms) by lia.
  repeat (first [rewrite (int_add_id h) by lia | case_inner]; cbn);
    unfold int_rem; zlia.
Qed.

Lemma count_time_sw_ok t : sw_ok t -> sw_ok (count_time t).
Proof.
  intros [Hv Hmod].
  destruct (Z.lt_ge_cases (milliseconds t + TICKRATE) 1000) as [Hlt | Hge].
  - rewrite count_time_within by done.
    destruct t. unfold sw_ok, valid_time, TICKRATE in *. cbn in *.
    split; [lia | zlia].
  - assert (Heq : milliseconds t + TICKRATE = 1000).
    { destruct Hv as (_ & _ & _ & Hms). unfold TICKRATE in *. zlia. }
    destruct (count_time_carry t Hv Heq) as (Hv' & Hms' & _).
    split; [done|]. by rewrite Hms'.
Qed.

Lemma increment_segment_hours seg t :
  0 <= hours t <= 23 -> 0 <= hours (increment_segment seg t) <= 23.
Proof.
  destruct t as [h m sec ms]. unfold increment_segment. cbn -[int_add int_rem].
  intros Hh.
  repeat (first [rewrite (int_add_id h) by lia
                | rewrite (int_add_id (h + 1)) by lia
                | case_inner]; cbn -[int_add int_rem]);
    unfold int_rem; zlia.
Qed.

Lemma clear_segment_hours seg t :
  0 <= hours t <= 23 -> 0 <= hours (clear_segment seg t) <= 23.
Proof.
  destruct t. unfold clear_segment. cbn. intros Hh. case_tests; cbn; lia.
Qed.

Lemma retreat_timer_ok t : timer_ok t -> timer_ok (retreat t).
Proof.
  destruct t as [h m sec ms]. unfold timer_ok, retreat, TICKRATE. cbn.
  intros (Hh & Hms).
  rewrite (int_sub_id ms) by lia.
  repeat (case_inner; cbn -[int_sub]); lia.
Qed.

Lemma zero_fields_zero t : zero_fields t = zero_time.
Proof. by destruct t. Qed.

(** The struct [set_time] edits keeps its hours in range and has its
    subseconds at 0. *)
Lemma set_time_hours r inp s :
  0 <= hours (get_time r s) <= 23 ->
  0 <= hours (get_time r (set_time r inp s)) <= 23 /\
  milliseconds (get_time r (set_time r inp s)) = 0.
Proof.
  intros Hh. split; [|apply set_time_milliseconds].
  apply (set_time_preserves (fun t => 0 <= hours t <= 23)
                            (fun t => 0 <= hours t <= 23));
    [by intros [] | | | done].
  - intros seg t. apply clear_segment_hours.
  - intros seg t. apply increment_segment_hours.
Qed.

Lemma set_button_block_timer inp s :
  timer (set_button_block inp s) = timer s \/
  timer (set_button_block inp s) = zero_time.
Proof.
  unfold set_button_block.
  destruct s, inp as [[] b1 b2 b3 b4]; cbv zeta; abstract_io; simpl_state;
    case_tests; simpl_state; rewrite ?zero_fields_zero; auto.
Qed.

Lemma stopwatch_clear_value inp s :
  stopWatchTime (stopwatch_clear inp s) = stopWatchTime s \/
  stopWatchTime (stopwatch_clear inp s) = zero_time.
Proof.
  unfold stopwatch_clear.
  destruct s, inp as [b0 b1 b2 [] b4]; solve_values.
Qed.

Lemma stopwatch_count_value s :
  stopWatchTime (stopwatch_count s) = stopWatchTime s \/
  stopWatchTime (stopwatch_count s) = count_time (stopWatchTime s).
Proof. unfold stopwatch_count. destruct s; solve_values. Qed.

Lemma run_stopwatch_value inp s :
  exists t, (t = stopWatchTime s \/ t = zero_time) /\
    (stopWatchTime (run_stopwatch inp s) = t \/
     stopWatchTime (run_stopwatch inp s) = count_time t).
Proof.
  unfold run_stopwatch. cbv zeta.
  assert (H1 : stopWatchTime (stopwatch_start_stop inp s) = stopWatchTime s).
  { destruct (stopwatch_start_stop_changes inp s) as (? & ? & ->).
    by destruct s. }
  revert H1. generalize (stopwatch_start_stop inp s). intros s1 H1.
  pose proof (stopwatch_clear_value inp s1) as H2. rewrite H1 in H2.
  revert H2. generalize (stopwatch_clear inp s1). intros s2 H2.
  pose proof (stopwatch_count_value s2) as H3.
  revert H3. generalize (stopwatch_count s2). intros s3 H3.
  destruct (io_only_times _ _ (update_lcd_io (stopWatchTime s3) s3))
    as (_ & -> & _).
  exists (stopWatchTime s2). split; [done|]. done.
Qed.

Lemma timer_buttons_value inp s :
  timer (timer_buttons inp s) = timer s \/
  timer (timer_buttons inp s) = zero_time.
Proof.
  unfold timer_buttons, timer_clear, timer_start_stop.
  destruct s, inp as [b0 b1 [] [] b4]; cbv zeta; simpl_state; case_tests;
    simpl_state; rewrite ?zero_fields_zero; auto.
Qed.

Lemma timer_flash_value s : timer (timer_flash s) = timer s.
Proof.
  destruct (timer_flash_changes s) as (? & ? & ? & ->). by destruct s.
Qed.

Lemma timer_count_value s : timer (timer_count s) = retreat (timer s).
Proof. unfold timer_count. destruct s; solve_values. Qed.

Lemma run_timer_ok inp s : timer_ok (timer s) -> timer_ok (timer (run_timer inp s)).
Proof.
  intros Hok. unfold run_timer. cbv zeta.
  assert (H1 : timer_ok (timer (timer_buttons inp s))).
  { destruct (timer_buttons_value inp s) as [-> | ->]; [done|].
    unfold timer_ok. cbn. lia. }
  revert H1. generalize (timer_buttons inp s). intros s1 H1.
  destruct (negb (isSettingTime s1 =? 0)).
  - destruct (set_time_hours Timer inp s1) as [Hh Hms]; [apply H1|].
    cbn [get_time] in Hh, Hms. unfold timer_ok. lia.
  - destruct (timer_sum (timer s1) =? 0).
    + by rewrite timer_flash_value.
    + destruct (negb (isTimerCounting s1 =? 0)); [|done].
      rewrite timer_count_value. by apply retreat_timer_ok.
Qed.

Lemma run_timer_frame inp s :
  timeOfDay (run_timer inp s) = timeOfDay s /\
  stopWatchTime (run_timer inp s) = stopWatchTime s.
Proof.
  destruct (run_timer_changes inp s)
    as (? & ? & ? & ? & ? & ? & ? & ? & ? & ? & ->).
  by destruct s.
Qed.

Lemma run_stopwatch_frame inp s :
  timeOfDay (run_stopwatch inp s) = timeOfDay s /\
  timer (run_stopwatch inp s) = timer s.
Proof.
  destruct (run_stopwatch_changes inp s) as (? & ? & ? & ? & ? & ? & ->).
  by destruct s.
Qed.

Lemma zero_time_sw_ok : sw_ok zero_time.
Proof. unfold sw_ok, valid_time. cbn. split; [lia|done]. Qed.

Lemma mode_switch_time_inv inp s : time_inv s -> time_inv (mode_switch inp s).
Proof.
  intros (Htod & Hsw & Htm). unfold time_inv, mode_switch.
  destruct (modeNumber s =? 0).
  { by destruct (io_only_times _ _ (led_display_io (timeOfDay s) s))
      as (-> & -> & ->). }
  destruct (modeNumber s =? 1).
  { destruct (run_stopwatch_frame inp s) as [-> ->].
    split; [done|]. split; [|done].
    destruct (run_stopwatch_value inp s) as (t & Ht & Hr).
    assert (Hokt : sw_ok t)
      by (destruct Ht as [-> | ->]; [done | apply zero_time_sw_ok]).
    destruct Hr as [-> | ->]; [done | by apply count_time_sw_ok]. }
  destruct (modeNumber s =? 2); [|done].
  destruct (run_timer_frame inp s) as [-> ->].
  split; [done|]. split; [done|]. by apply run_timer_ok.
Qed.

Lemma clock_block_time_inv inp s : time_inv s -> time_inv (clock_block inp s).
Proof.
  intros (Htod & Hsw & Htm). unfold time_inv.
  destruct (clock_block_control inp s) as (-> & -> & _).
  split; [|done]. rewrite clock_block_timeOfDay.
  destruct (negb (isSettingTime s =? 1) || negb (modeNumber s =? 0)).
  - by apply count_time_tod_ok.
  - destruct (set_time_hours TimeOfDay inp s) as [Hh Hms]; [apply Htod|].
    cbn [get_time] in Hh, Hms. unfold tod_ok. rewrite Hms.
    split; [done|]. split; [lia|done].
Qed.

Lemma set_button_block_time_inv inp s :
  time_inv s -> time_inv (set_button_block inp s).
Proof.
  intros (Htod & Hsw & Htm). unfold time_inv.
  destruct (set_button_block_control inp s) as (-> & -> & _).
  split; [done|]. split; [done|].
  destruct (set_button_block_timer inp s) as [-> | ->]; [done|].
  unfold timer_ok. cbn. lia.
Qed.

Lemma loop_time_inv inp s : time_inv s -> time_inv (loop inp s).
Proof.
  intros Hs. rewrite loop_after_toggle. apply mode_switch_time_inv.
  unfold after_toggle, before_toggle, time_inv.
  destruct (toggle_block_times inp (clock_block inp (set_button_block inp s)))
    as (-> & -> & ->).
  by apply clock_block_time_inv, set_button_block_time_inv.
Qed.

Lemma reachable_time_inv s : reachable s -> time_inv s.
Proof.
  induction 1 as [|inp s _ IH]; [|by apply loop_time_inv].
  unfold time_inv, tod_ok, sw_ok, timer_ok, valid_time.
  change (timeOfDay init) with zero_time.
  change (stopWatchTime init) with zero_time.
  change (timer init) with zero_time. cbn. repeat split; lia.
Qed.

(** C1, as amended.  After every tick from start-up the stopwatch is
    normalized (hours 0-23, minutes and seconds 0-59, subseconds 0-999);
    the time of day has its hours in 0-23 and its subseconds in 0-999; the
    countdown has its hours in 0-23 and its subseconds in 0-1000, the
    value 1000 being what a borrow leaves. *)
Theorem tick_ranges (s : State) :
  reachable s ->
  valid_time (stopWatchTime s) /\
  (0 <= hours (timeOfDay s) <= 23 /\
   0 <= milliseconds (timeOfDay s) <= 999) /\
  (0 <= hours (timer s) <= 23 /\
   0 <= milliseconds (timer s) <= 1000).
Proof.
  intros Hreach.
  destruct (reachable_time_inv s Hreach)
    as ((Hh & Hms & _) & (Hv & _) & Htm).
  done.
Qed.

(** The theorem on a run that sets the timer to one second and starts it. *)
Lemma tick_ranges_witness :
  valid_time (stopWatchTime timer_started) /\
  (0 <= hours (timeOfDay timer_started) <= 23 /\
   0 <= milliseconds (timeOfDay timer_started) <= 999) /\
  (0 <= hours (timer timer_started) <= 23 /\
   0 <= milliseconds (timer timer_started) <= 1000).
Proof.
  apply (tick_ranges timer_started). apply reachable_run. constructor.
Defined.

(** C1 as stated bounds the subseconds of every Time Value by 999.  Set
    the timer to one second and start it: on its first tick the countdown
    borrows and reads 00:00:00 with 1000 subseconds. *)
Lemma countdown_subseconds_1000 :
  reachable timer_started /\
  timer timer_started = mkTime 0 0 0 1000 /\
  ~ valid_time (timer timer_started).
Proof.
  split; [apply reachable_run; constructor|].
  assert (Ht : timer timer_started = mkTime 0 0 0 1000)
    by (vm_compute; reflexivity).
  split; [exact Ht|]. rewrite Ht. unfold valid_time. cbn. lia.
Qed.

(** ** The countdown step *)

(** The first two borrows are as the spec has them. *)
Lemma retreat_borrow_second t :
  0 <= milliseconds t < TICKRATE - 2 -> 1 <= seconds t <= 60 ->
  minutes t <> -1 ->
  retreat t = set_milliseconds 1000 (set_seconds (seconds t - 1) t).
Proof.
  destruct t as [h m sec ms]. unfold retreat, TICKRATE. cbn.
  intros Hms Hs Hm.
  rewrite (int_sub_id ms) by lia.
  repeat (first [rewrite (int_sub_id sec) by lia | case_inner]; cbn -[int_sub]);
    try lia; done.
Qed.

Lemma retreat_borrow_minute t :
  0 <= milliseconds t < TICKRATE - 2 -> seconds t = 0 ->
  1 <= minutes t <= 60 ->
  retreat t = mkTime (hours t) (minutes t - 1) 59 1000.
Proof.
  destruct t as [h m sec ms]. unfold retreat, TICKRATE. cbn.
  intros Hms -> Hm.
  rewrite (int_sub_id ms) by lia.
  repeat (first [rewrite (int_sub_id 0) by lia
                | rewrite (int_sub_id m) by lia
                | case_inner]; cbn -[int_sub]);
    try lia; done.
Qed.

(** The third check decrements the minutes again and leaves the hours. *)
Lemma retreat_underflow t :
  0 <= milliseconds t < TICKRATE - 2 -> seconds t = 0 -> minutes t = 0 ->
  retreat t = mkTime (hours t) (-2) 59 1000.
Proof.
  destruct t as [h m sec ms]. unfold retreat, TICKRATE. cbn.
  intros Hms -> ->.
  rewrite (int_sub_id ms) by lia.
  repeat (first [rewrite (int_sub_id 0) by lia
                | rewrite (int_sub_id (-1)) by lia
                | case_inner]; cbn -[int_sub]);
    try lia; done.
Qed.

(** C2 fails on the code at an hour boundary.  One countdown step from
    01:00:00.000 borrows a second and a minute as the claim says, and then
    the check for minutes at -1 decrements the minutes once more and sets
    the seconds: the result is hours 1, minutes -2, seconds 59, subseconds
    1000, where the claim has hours 0 and minutes 59.  The state is
    reached from start-up by setting the timer to one hour and starting
    it. *)
Theorem retreat_at_hour_boundary :
  retreat (mkTime 1 0 0 0) = mkTime 1 (-2) 59 1000 /\
  retreat (mkTime 1 0 0 0) <> mkTime 0 59 59 1000 /\
  modeNumber timer_one_hour = 2 /\ isSettingTime timer_one_hour = 0 /\
  timer timer_one_hour = mkTime 1 0 0 0 /\
  timer (loop idle timer_one_hour) = mkTime 1 (-2) 59 1000.
Proof.
  split; [reflexivity|]. split; [intros H; discriminate H|].
  vm_compute. repeat split.
Qed.

(** ** The release latches *)

(** The clear button of the stopwatch drops its latch when the event
    fires; the clear button of the timer drops the latch of func1 and
    keeps its own. *)
Lemma stopwatch_clear_latch inp s :
  f2Button inp = false -> f2ButtonRelease s = 1 ->
  f2ButtonRelease (stopwatch_clear inp s) = 0.
Proof.
  unfold stopwatch_clear.
  destruct s, inp as [b0 b1 b2 b3 b4]. cbn. intros -> ->. solve_values.
Qed.

Lemma timer_clear_latch inp s :
  f2Button inp = false -> f2ButtonRelease s = 1 ->
  f2ButtonRelease (timer_clear inp s) = 1 /\
  f1ButtonRelease (timer_clear inp s) = 0.
Proof.
  unfold timer_clear.
  destruct s, inp as [b0 b1 b2 b3 b4]. cbn. intros -> ->. solve_values.
Qed.

(** C4 fails on the code for the clear button in Timer mode.  In Timer
    mode, push clear and let it go: the event fires and the latch
    [f2ButtonRelease] still reads 1 at the end of that tick and of the
    next, so the event fires again on every tick with the button up.
    Each firing also wipes the latch of func1: with func1 held on the
    following tick its latch reads 0, and a full push of func1 does not
    start the timer, which it does when clear was never pushed.  The
    clear button of the stopwatch, the same code but for the last
    assignment, ends with its latch at 0. *)
Theorem timer_clear_latch_stays_set :
  (modeNumber timer_clear_down = 2 /\ isSettingTime timer_clear_down = 0 /\
   f2ButtonRelease timer_clear_down = 1) /\
  f2ButtonRelease (loop idle timer_clear_down) = 1 /\
  f2ButtonRelease (loop idle (loop idle timer_clear_down)) = 1 /\
  f1ButtonRelease (loop press_f1 (loop idle timer_clear_down)) = 0 /\
  isTimerCounting (run (click press_f1) (loop idle timer_clear_down)) = 0 /\
  isTimerCounting
    (run (click press_toggle ++ click press_toggle ++ click press_f1) init) = 1 /\
  f2ButtonRelease (run (click press_toggle ++ click press_f2) init) = 0.
Proof. vm_compute. repeat split. Qed.

(** ** The carry of the editing increment *)

(** C6 fails on the code at 59.  The overflow checks of [set_time] test
    [> 60]: incrementing seconds at 59 gives 60 with the minutes
    unchanged, and likewise minutes at 59 give 60 with the hours
    unchanged, where the claim has 0 and a carry.  From start-up, opening
    the editing of the clock and pushing func1 sixty times leaves the time
    of day at 00:00:60. *)
Theorem increment_segment_at_59 :
  increment_segment 0 (mkTime 0 0 59 0) = mkTime 0 0 60 0 /\
  increment_segment 1 (mkTime 0 59 0 0) = mkTime 0 60 0 0 /\
  increment_segment 0 (mkTime 0 0 60 0) = mkTime 0 1 1 0 /\
  isSettingTime editing_clock_59 = 1 /\ segment editing_clock_59 = 0 /\
  timeOfDay editing_clock_59 = mkTime 0 0 59 0 /\
  timeOfDay (run (click press_f1) editing_clock_59) = mkTime 0 0 60 0.
Proof. vm_compute. repeat split. Qed.

(** * Further properties of the code *)

(** ** [count_time] over any number of ticks *)

Lemma count_time_day_millis t :
  sw_ok t ->
  day_millis (count_time t) = (day_millis t + TICKRATE) mod day_length.
Proof.
  intros [Hv Hmod].
  destruct (Z.lt_ge_cases (milliseconds t + TICKRATE) 1000) as [Hlt | Hge].
  - rewrite count_time_within by done.
    destruct t. unfold valid_time, day_millis, day_seconds, day_length,
      TICKRATE in *. cbn in *. zlia.
  - assert (Heq : milliseconds t + TICKRATE = 1000).
    { destruct Hv as (_ & _ & _ & Hms). unfold TICKRATE in *. zlia. }
    destruct (count_time_carry t Hv Heq) as (Hv' & Hms' & Hday).
    unfold day_millis. rewrite Hms', Hday.
    destruct t. unfold valid_time, day_seconds, day_length, TICKRATE in *.
    cbn in *. zlia.
Qed.

Lemma iter_count_time_day_millis n t :
  sw_ok t ->
  sw_ok (Nat.iter n count_time t) /\
  day_millis (Nat.iter n count_time t)
  = (day_millis t + TICKRATE * Z.of_nat n) mod day_length.
Proof.
  intros Hok. induction n as [|n [IHok IH]].
  - split; [done|]. cbn [Nat.iter].
    destruct Hok as [Hv _]. destruct t.
    unfold valid_time, day_millis, day_seconds, day_length, TICKRATE in *.
    cbn in *. zlia.
  - rewrite Nat.iter_succ. split; [by apply count_time_sw_ok|].
    rewrite count_time_day_millis, IH by done.
    unfold day_length, TICKRATE. zlia.
Qed.

Lemma day_millis_inj t1 t2 :
  valid_time t1 -> valid_time t2 -> day_millis t1 = day_millis t2 -> t1 = t2.
Proof.
  destruct t1, t2. unfold valid_time, day_millis, day_seconds. cbn.
  intros H1 H2 Heq.
  assert (hours0 = hours1 /\ minutes0 = minutes1 /\ seconds0 = seconds1 /\
          milliseconds0 = milliseconds1) as (-> & -> & -> & ->) by lia.
  done.
Qed.

(** X1.  On a normalized Time Value whose subseconds are a multiple of the
    tick, [n] calls of [count_time] add [n] ticks to the milliseconds
    since midnight, modulo one day, and the value stays normalized and on
    the tick grid; one day of ticks brings back the very same value. *)
Theorem count_time_adds_ticks (n : nat) (t : timeStruct) :
  valid_time t -> milliseconds t mod TICKRATE = 0 ->
  valid_time (Nat.iter n count_time t) /\
  milliseconds (Nat.iter n count_time t) mod TICKRATE = 0 /\
  day_millis (Nat.iter n count_time t)
  = (day_millis t + TICKRATE * Z.of_nat n) mod day_length /\
  (Z.of_nat n = day_length / TICKRATE -> Nat.iter n count_time t = t).
Proof.
  intros Hv Hmod.
  destruct (iter_count_time_day_millis n t (conj Hv Hmod)) as ([Hv' Hmod'] & Hd).
  split; [done|]. split; [done|]. split; [done|].
  intros Hn. apply day_millis_inj; [done..|]. rewrite Hd, Hn.
  destruct t. unfold valid_time, day_millis, day_seconds, day_length,
    TICKRATE in *. cbn in *. zlia.
Qed.

(** The theorem for 1000 ticks from 23:59:55.000. *)
Lemma count_time_adds_ticks_witness :
  valid_time (Nat.iter 1000 count_time (mkTime 23 59 55 0)) /\
  day_millis (Nat.iter 1000 count_time (mkTime 23 59 55 0))
  = (day_millis (mkTime 23 59 55 0) + TICKRATE * Z.of_nat 1000) mod day_length.
Proof.
  destruct (count_time_adds_ticks 1000 (mkTime 23 59 55 0)) as (Hv & _ & Hd & _).
  - unfold valid_time. cbn. lia.
  - reflexivity.
  - split; [exact Hv | exact Hd].
Defined.

(** ** The countdown over many steps *)

Lemma retreat_no_borrow t :
  TICKRATE - 2 <= milliseconds t <= 1000 ->
  seconds t <> -1 -> minutes t <> -1 ->
  retreat t = set_milliseconds (milliseconds t - (TICKRATE - 2)) t.
Proof.
  destruct t as [h m sec ms]. unfold retreat, TICKRATE. cbn.
  intros Hms Hs Hm.
  rewrite (int_sub_id ms) by lia.
  repeat (case_inner; cbn -[int_sub]); try lia; done.
Qed.

Lemma iter_retreat_no_borrow k t :
  0 <= milliseconds t - (TICKRATE - 2) * Z.of_nat k ->
  milliseconds t <= 1000 ->
  seconds t <> -1 -> minutes t <> -1 ->
  Nat.iter k retreat t
  = set_milliseconds (milliseconds t - (TICKRATE - 2) * Z.of_nat k) t.
Proof.
  intros Hlow Hhigh Hs Hm. induction k as [|k IH].
  - cbn [Nat.iter]. destruct t. unfold set_milliseconds, TICKRATE. cbn.
    f_equal. lia.
  - rewrite Nat.iter_succ, IH by (unfold TICKRATE in *; lia).
    destruct t as [h m sec ms]. unfold TICKRATE in *. cbn in *.
    rewrite retreat_no_borrow by (unfold TICKRATE; cbn; lia).
    unfold set_milliseconds, TICKRATE. cbn. f_equal. lia.
Qed.

Lemma iter_retreat_second t :
  milliseconds t = 1000 -> 1 <= seconds t <= 60 -> minutes t <> -1 ->
  Nat.iter 166 retreat t = set_milliseconds 4 t /\
  Nat.iter 167 retreat t = set_seconds (seconds t - 1) t.
Proof.
  intros Hms Hs Hm.
  assert (H166 : Nat.iter 166 retreat t = set_milliseconds 4 t).
  { rewrite iter_retreat_no_borrow by (unfold TICKRATE; lia).
    rewrite Hms. reflexivity. }
  split; [exact H166|].
  change 167%nat with (S 166). rewrite Nat.iter_succ, H166. clear H166.
  destruct t as [h m sec ms]. cbn in Hms, Hs, Hm. subst ms.
  rewrite retreat_borrow_second by (unfold TICKRATE; cbn; lia).
  reflexivity.
Qed.

(** X2.  Counting from subseconds 1000 (what a borrow leaves), the
    countdown takes 167 steps to take one second off: 166 steps bring the
    subseconds down to 4 and the next one borrows.  The seconds must have
    one to give and the minutes must not be at -1. *)
Theorem retreat_one_second (t : timeStruct) :
  milliseconds t = 1000 -> 1 <= seconds t <= 60 -> minutes t <> -1 ->
  Nat.iter 166 retreat t = set_milliseconds 4 t /\
  Nat.iter 167 retreat t = set_seconds (seconds t - 1) t.
Proof. apply iter_retreat_second. Qed.

(** The theorem from 00:01:30 with 1000 subseconds. *)
Lemma retreat_one_second_witness :
  Nat.iter 166 retreat (mkTime 0 1 30 1000) = mkTime 0 1 30 4 /\
  Nat.iter 167 retreat (mkTime 0 1 30 1000) = mkTime 0 1 29 1000.
Proof.
  apply (retreat_one_second (mkTime 0 1 30 1000)); cbn; lia.
Defined.

(** ** The subseconds of the countdown *)

Lemma retreat_milliseconds t :
  -32000 <= milliseconds t <= 32000 ->
  milliseconds (retreat t)
  = if milliseconds t - (TICKRATE - 2) <? 0 then 1000
    else milliseconds t - (TICKRATE - 2).
Proof.
  destruct t as [h m sec ms]. unfold retreat, TICKRATE. cbn. intros Hms.
  rewrite (int_sub_id ms) by lia.
  repeat (case_inner; cbn -[int_sub]); try lia; done.
Qed.

Lemma retreat_countdown_grid t :
  milliseconds t = 0 \/ countdown_grid t -> countdown_grid (retreat t).
Proof.
  unfold countdown_grid, TICKRATE. intros Hms.
  rewrite retreat_milliseconds by lia. unfold TICKRATE.
  destruct (Z.ltb_spec (milliseconds t - (8 - 2)) 0); zlia.
Qed.

Lemma run_timer_preserves (P : timeStruct -> Prop) inp s :
  P zero_time ->
  (forall t, P t -> P (retreat t)) ->
  (forall t, P t -> P (set_milliseconds 0 t)) ->
  (forall seg t, P t -> P (clear_segment seg t)) ->
  (forall seg t, P t -> P (increment_segment seg t)) ->
  P (timer s) -> P (timer (run_timer inp s)).
Proof.
  intros Hz Hr H0 Hc Hi Hok. unfold run_timer. cbv zeta.
  assert (H1 : P (timer (timer_buttons inp s)))
    by (by destruct (timer_buttons_value inp s) as [-> | ->]).
  revert H1. generalize (timer_buttons inp s). intros s1 H1.
  destruct (negb (isSettingTime s1 =? 0)).
  - by apply (set_time_preserves P P Timer).
  - destruct (timer_sum (timer s1) =? 0).
    + by rewrite timer_flash_value.
    + destruct (negb (isTimerCounting s1 =? 0)); [|done].
      rewrite timer_count_value. by apply Hr.
Qed.

Lemma loop_timer_preserves (P : timeStruct -> Prop) inp s :
  P zero_time ->
  (forall t, P t -> P (retreat t)) ->
  (forall t, P t -> P (set_milliseconds 0 t)) ->
  (forall seg t, P t -> P (clear_segment seg t)) ->
  (forall seg t, P t -> P (increment_segment seg t)) ->
  P (timer s) -> P (timer (loop inp s)).
Proof.
  intros Hz Hr H0 Hc Hi Hok.
  assert (H1 : P (timer (after_toggle inp s))).
  { unfold after_toggle, before_toggle.
    destruct (toggle_block_times inp (clock_block inp (set_button_block inp s)))
      as (_ & _ & ->).
    destruct (clock_block_control inp (set_button_block inp s)) as (_ & -> & _).
    by destruct (set_button_block_timer inp s) as [-> | ->]. }
  rewrite loop_after_toggle. revert H1.
  generalize (after_toggle inp s). intros s3 H3. unfold mode_switch.
  destruct (modeNumber s3 =? 0).
  { by destruct (io_only_times _ _ (led_display_io (timeOfDay s3) s3))
      as (_ & _ & ->). }
  destruct (modeNumber s3 =? 1).
  { by destruct (run_stopwatch_frame inp s3) as [_ ->]. }
  destruct (modeNumber s3 =? 2); [|done].
  by apply run_timer_preserves.
Qed.

(** X3.  In every state reached from start-up the subseconds of the
    countdown are 0 or one of 1000, 994, ..., 10, 4.  One more countdown
    step from such a state again leaves one of 1000, ..., 4: counting down
    never brings the subseconds back to 0, so it never produces the
    all-zero Time Value. *)
Theorem countdown_never_zero (s : State) :
  reachable s ->
  (milliseconds (timer s) = 0 \/ countdown_grid (timer s)) /\
  countdown_grid (retreat (timer s)) /\
  retreat (timer s) <> zero_time.
Proof.
  intros Hreach.
  assert (Hinv : milliseconds (timer s) = 0 \/ countdown_grid (timer s)).
  { induction Hreach as [|inp s _ IH]; [by left|].
    apply (loop_timer_preserves
             (fun t => milliseconds t = 0 \/ countdown_grid t)); try done.
    - by left.
    - intros t Ht. right. by apply retreat_countdown_grid.
    - intros t _. by left.
    - intros seg t. unfold countdown_grid.
      by rewrite clear_segment_milliseconds.
    - intros seg t. unfold countdown_grid.
      by rewrite increment_segment_milliseconds. }
  split; [exact Hinv|].
  pose proof (retreat_countdown_grid _ Hinv) as Hg.
  split; [exact Hg|]. intros Hz. rewrite Hz in Hg.
  destruct Hg as [Hg _]. cbn in Hg. lia.
Qed.

(** The theorem in the state where the timer, set to one second, has run
    for a tick. *)
Lemma countdown_never_zero_witness :
  (milliseconds (timer timer_started) = 0 \/ countdown_grid (timer timer_started)) /\
  countdown_grid (retreat (timer timer_started)) /\
  retreat (timer timer_started) <> zero_time.
Proof.
  apply (countdown_never_zero timer_started). apply reachable_run. constructor.
Defined.

(** ** Reading the LEDs back *)

Lemma bit_value v i :
  0 <= i ->
  (if Z.testbit v i then 2 ^ i else 0) = ((v / 2 ^ i) mod 2) * 2 ^ i.
Proof.
  intros Hi. rewrite <- Z.testbit_spec' by done.
  destruct (Z.testbit v i); cbn; lia.
Qed.

Lemma low_bits_6 v :
  (if Z.testbit v 0 then 2 ^ 0 else 0) + ((if Z.testbit v 1 then 2 ^ 1 else 0)
  + ((if Z.testbit v 2 then 2 ^ 2 else 0) + ((if Z.testbit v 3 then 2 ^ 3 else 0)
  + ((if Z.testbit v 4 then 2 ^ 4 else 0) + ((if Z.testbit v 5 then 2 ^ 5 else 0)
  + 0))))) = v mod 64.
Proof.
  rewrite !bit_value by lia.
  change (2 ^ 0) with 1. change (2 ^ 1) with 2. change (2 ^ 2) with 4.
  change (2 ^ 3) with 8. change (2 ^ 4) with 16. change (2 ^ 5) with 32.
  zlia.
Qed.

Lemma low_bits_5 v :
  (if Z.testbit v 0 then 2 ^ 0 else 0) + ((if Z.testbit v 1 then 2 ^ 1 else 0)
  + ((if Z.testbit v 2 then 2 ^ 2 else 0) + ((if Z.testbit v 3 then 2 ^ 3 else 0)
  + ((if Z.testbit v 4 then 2 ^ 4 else 0) + 0)))) = v mod 32.
Proof.
  rewrite !bit_value by lia.
  change (2 ^ 0) with 1. change (2 ^ 1) with 2. change (2 ^ 2) with 4.
  change (2 ^ 3) with 8. change (2 ^ 4) with 16.
  zlia.
Qed.

Ltac pins_after_writes :=
  rewrite pins_foldl_writes; unfold led_writes;
  rewrite seqZ_0_6, seqZ_0_5;
  unfold lowestHourPin, lowestMinPin, lowestSecPin, lowestPin;
  cbn -[Z.testbit Z.pow bitRead];
  repeat first [ rewrite lookup_insert_eq
               | rewrite lookup_insert_ne by lia ];
  rewrite ?bitRead_testbit by lia.

Lemma led_display_read_bits t s :
  milliseconds t = 0 \/ milliseconds t = 1000 ->
  read_bits (pins (led_display t s)) lowestSecPin 6 = seconds t mod 64 /\
  read_bits (pins (led_display t s)) lowestMinPin 6 = minutes t mod 64 /\
  read_bits (pins (led_display t s)) lowestHourPin 5 = hours t mod 32.
Proof.
  intros Hms.
  assert (Hc : (milliseconds t =? 0) || (milliseconds t =? 1000) = true).
  { destruct Hms as [-> | ->]; reflexivity. }
  unfold led_display. rewrite Hc. unfold read_bits.
  split; [|split].
  - pins_after_writes. apply low_bits_6.
  - pins_after_writes. apply low_bits_6.
  - pins_after_writes. apply low_bits_5.
Qed.

(** X4.  When [led_display] writes (subseconds 0 or 1000), reading the
    three LED banks back as binary numbers gives the seconds and the
    minutes modulo 64 and the hours modulo 32; for a normalized Time Value
    these are the seconds, the minutes and the hours themselves. *)
Theorem led_display_read_back (t : timeStruct) (s : State) :
  milliseconds t = 0 \/ milliseconds t = 1000 ->
  (read_bits (pins (led_display t s)) lowestSecPin 6 = seconds t mod 64 /\
   read_bits (pins (led_display t s)) lowestMinPin 6 = minutes t mod 64 /\
   read_bits (pins (led_display t s)) lowestHourPin 5 = hours t mod 32) /\
  (0 <= seconds t <= 59 -> 0 <= minutes t <= 59 -> 0 <= hours t <= 23 ->
   read_bits (pins (led_display t s)) lowestSecPin 6 = seconds t /\
   read_bits (pins (led_display t s)) lowestMinPin 6 = minutes t /\
   read_bits (pins (led_display t s)) lowestHourPin 5 = hours t).
Proof.
  intros Hms. destruct (led_display_read_bits t s Hms) as (Hs & Hm & Hh).
  split; [done|]. intros Rs Rm Rh. rewrite Hs, Hm, Hh. zlia.
Qed.

(** The theorem at 12:34:56.000, and at the countdown value with minutes
    -2 that the LEDs show as 62. *)
Lemma led_display_read_back_witness :
  read_bits (pins (led_display (mkTime 12 34 56 0) init)) lowestSecPin 6 = 56 /\
  read_bits (pins (led_display (mkTime 12 34 56 0) init)) lowestMinPin 6 = 34 /\
  read_bits (pins (led_display (mkTime 12 34 56 0) init)) lowestHourPin 5 = 12 /\
  read_bits (pins (led_display (mkTime 1 (-2) 59 1000) init)) lowestMinPin 6
  = (-2) mod 64.
Proof.
  destruct (led_display_read_back (mkTime 12 34 56 0) init (or_introl eq_refl))
    as [_ Hv].
  destruct (led_display_read_back (mkTime 1 (-2) 59 1000) init
              (or_intror eq_refl)) as [(_ & Hm & _) _].
  destruct Hv as (H1 & H2 & H3); [cbn; lia..|].
  split; [exact H1|]. split; [exact H2|]. split; [exact H3|]. exact Hm.
Defined.

(** ** The LCD calls leave the pins alone *)

Lemma lcd_only_refl s : lcd_only s s.
Proof. exists (out s). by destruct s. Qed.

Lemma lcd_only_trans s1 s2 s3 : lcd_only s1 s2 -> lcd_only s2 s3 -> lcd_only s1 s3.
Proof. intros (o & ->) (o' & ->). by exists o'. Qed.

Lemma lcd_setCursor_lcd_only c r s : lcd_only s (lcd_setCursor c r s).
Proof. by eexists. Qed.

Lemma lcd_print_lcd_only text s : lcd_only s (lcd_print text s).
Proof. by eexists. Qed.

Lemma lcd_print_int_lcd_only n s : lcd_only s (lcd_print_int n s).
Proof. by eexists. Qed.

Lemma update_lcd_lcd_only t s : lcd_only s (update_lcd t s).
Proof.
  unfold update_lcd.
  repeat first
    [ apply lcd_only_refl
    | eapply lcd_only_trans; [|apply lcd_print_int_lcd_only]
    | eapply lcd_only_trans; [|apply lcd_print_lcd_only]
    | eapply lcd_only_trans; [|apply lcd_setCursor_lcd_only]
    | case_match ].
Qed.

Lemma update_lcd_pins t s : pins (update_lcd t s) = pins s.
Proof. destruct (update_lcd_lcd_only t s) as (o & ->). by destruct s. Qed.

Lemma write_all_leds_all val s : leds_all (negb (val =? LOW)) (write_all_leds val s).
Proof. intros p Hp. by apply write_all_leds_pins. Qed.

(** ** The flashing of an expired timer *)

(** X5.  With [flash] in 0..79, one pass of the flashing code advances it
    by one modulo 80 and leaves the countdown as it is.  The pass that
    brings [flash] to 0 writes HIGH to all 17 LED pins, the one that brings
    it to 40 writes LOW to all of them, and every other pass leaves the
    pins untouched: 40 ticks lit, 40 ticks dark. *)
Theorem timer_flash_cycle (s : State) :
  0 <= flash s <= 79 ->
  flash (timer_flash s) = (flash s + 1) mod 80 /\
  timer (timer_flash s) = timer s /\
  (flash s = 79 -> leds_all true (timer_flash s)) /\
  (flash s = 39 -> leds_all false (timer_flash s)) /\
  (flash s <> 79 -> flash s <> 39 -> pins (timer_flash s) = pins s).
Proof.
  intros Hf.
  assert (Hrem : int_rem (int_add (flash s) 1) 80 = (flash s + 1) mod 80).
  { rewrite int_add_id by lia. unfold int_rem. apply Z.rem_mod_nonneg; lia. }
  split; [|split; [apply timer_flash_value|]].
  { unfold timer_flash. cbv zeta. abstract_io. destruct s.
    simpl_state. cbn in Hrem. rewrite Hrem. by case_tests. }
  unfold timer_flash, leds_all. cbv zeta. rewrite !update_lcd_pins.
  set (s1 := with_flash (int_rem (flash (with_flash (int_add (flash s) 1) s)) 80)
               (with_flash (int_add (flash s) 1) s)).
  assert (H1 : flash s1 = (flash s + 1) mod 80 /\ pins s1 = pins s).
  { subst s1. destruct s. cbn in *. by rewrite Hrem. }
  clearbody s1. destruct H1 as [H1 Hp1]. rewrite H1.
  split; [|split].
  - intros -> p Hp. change ((79 + 1) mod 80 =? 0) with true. cbv iota.
    by apply (write_all_leds_pins HIGH).
  - intros -> p Hp. change ((39 + 1) mod 80 =? 0) with false.
    change ((39 + 1) mod 80 =? 40) with true. cbv iota.
    by apply (write_all_leds_pins LOW).
  - intros H79 H39.
    destruct (Z.eqb_spec ((flash s + 1) mod 80) 0); [zlia|].
    destruct (Z.eqb_spec ((flash s + 1) mod 80) 40); [zlia|]. done.
Qed.

(** The theorem at [flash] = 79 on the start-up state. *)
Lemma timer_flash_cycle_witness :
  flash (timer_flash (with_flash 79 init)) = (79 + 1) mod 80 /\
  leds_all true (timer_flash (with_flash 79 init)).
Proof.
  destruct (timer_flash_cycle (with_flash 79 init)) as (Hf & _ & Hon & _).
  - cbn. lia.
  - split; [exact Hf|]. apply Hon. reflexivity.
Defined.

(** ** Clearing the stopwatch *)

Lemma led_display_zero_all s : leds_all false (led_display zero_time s).
Proof.
  intros p. unfold lowestPin, highestPin. intros Hp.
  unfold led_display. change (milliseconds zero_time =? 0) with true.
  cbv iota beta. change (true || _) with true. cbv iota.
  rewrite pins_foldl_writes. unfold led_writes.
  rewrite seqZ_0_6, seqZ_0_5.
  unfold lowestHourPin, lowestMinPin, lowestSecPin, lowestPin.
  cbn -[Z.testbit].
  assert (Hcase : p = 22 \/ p = 23 \/ p = 24 \/ p = 25 \/ p = 26 \/ p = 27 \/
                  p = 28 \/ p = 29 \/ p = 30 \/ p = 31 \/ p = 32 \/ p = 33 \/
                  p = 34 \/ p = 35 \/ p = 36 \/ p = 37 \/ p = 38) by lia.
  repeat (destruct Hcase as [-> | Hcase]); [..|subst p];
    repeat (rewrite lookup_insert_ne by lia); by rewrite lookup_insert_eq.
Qed.

Lemma stopwatch_clear_event inp s :
  f2Button inp = false -> f2ButtonRelease s = 1 ->
  stopwatch_clear inp s
  = led_display zero_time
      (with_f2ButtonRelease 0 (with_isStopwatchCounting 0
         (with_stopWatchTime zero_time s))).
Proof.
  unfold stopwatch_clear.
  destruct s, inp as [b0 b1 b2 b3 b4]. cbn. intros -> ->. reflexivity.
Qed.

Lemma stopwatch_start_stop_f2 inp s :
  f2ButtonRelease (stopwatch_start_stop inp s) = f2ButtonRelease s.
Proof.
  destruct (stopwatch_start_stop_changes inp s) as (? & ? & ->). by destruct s.
Qed.

(** X6.  When the release event of the clear button fires in
    [run_stopwatch], the stopwatch ends the call at 00:00:00.000 and
    stopped, with the latch of the button cleared and all 17 LEDs dark,
    whatever func1 does in the same call. *)
Theorem run_stopwatch_clear (inp : Inputs) (s : State) :
  f2Button inp = false -> f2ButtonRelease s = 1 ->
  stopWatchTime (run_stopwatch inp s) = zero_time /\
  isStopwatchCounting (run_stopwatch inp s) = 0 /\
  f2ButtonRelease (run_stopwatch inp s) = 0 /\
  leds_all false (run_stopwatch inp s).
Proof.
  intros Hlow Hlatch. unfold run_stopwatch. cbv zeta.
  rewrite <- (stopwatch_start_stop_f2 inp s) in Hlatch.
  revert Hlatch. generalize (stopwatch_start_stop inp s). intros s1 Hlatch.
  rewrite stopwatch_clear_event by done.
  pose proof (led_display_zero_all
    (with_f2ButtonRelease 0 (with_isStopwatchCounting 0
       (with_stopWatchTime zero_time s1)))) as Hleds.
  destruct (led_display_io zero_time
    (with_f2ButtonRelease 0 (with_isStopwatchCounting 0
       (with_stopWatchTime zero_time s1)))) as (p & o & Heq).
  rewrite Heq in *. clear Heq.
  assert (Hcount : forall s2,
    isStopwatchCounting s2 = 0 -> stopwatch_count s2 = s2).
  { intros s2 H0. unfold stopwatch_count. by rewrite H0. }
  rewrite Hcount by (by destruct s1).
  destruct (update_lcd_lcd_only
    (stopWatchTime (with_out o (with_pins p (with_f2ButtonRelease 0
       (with_isStopwatchCounting 0 (with_stopWatchTime zero_time s1))))))
    (with_out o (with_pins p (with_f2ButtonRelease 0
       (with_isStopwatchCounting 0 (with_stopWatchTime zero_time s1))))))
    as (o' & ->).
  destruct s1. split; [done|]. split; [done|]. split; [done|]. exact Hleds.
Qed.

(** The theorem on the tick after the clear button went down in Stopwatch
    mode with the stopwatch running. *)
Lemma run_stopwatch_clear_witness :
  stopWatchTime (run_stopwatch idle stopwatch_clear_down) = zero_time /\
  isStopwatchCounting (run_stopwatch idle stopwatch_clear_down) = 0.
Proof.
  destruct (run_stopwatch_clear idle stopwatch_clear_down) as (Ht & Hc & _).
  - reflexivity.
  - vm_compute. reflexivity.
  - split; [exact Ht | exact Hc].
Defined.

(** ** A Time Value changes only while its mode is shown *)

Lemma set_button_block_keeps inp s :
  isStopwatchCounting (set_button_block inp s) = isStopwatchCounting s /\
  (modeNumber s <> 2 ->
   timer (set_button_block inp s) = timer s /\
   isTimerCounting (set_button_block inp s) = isTimerCounting s).
Proof.
  unfold set_button_block.
  destruct s, inp as [[] b1 b2 b3 b4]; cbv zeta; abstract_io; simpl_state;
    case_tests; simpl_state; (split; [done|]); intros; (done || lia).
Qed.

Lemma before_toggle_keeps inp s :
  stopWatchTime (after_toggle inp s) = stopWatchTime s /\
  isStopwatchCounting (after_toggle inp s) = isStopwatchCounting s /\
  (modeNumber s <> 2 ->
   timer (after_toggle inp s) = timer s /\
   isTimerCounting (after_toggle inp s) = isTimerCounting s).
Proof.
  destruct (set_button_block_keeps inp s) as [Hc Ht].
  destruct (set_button_block_control inp s) as (_ & Hsw & _).
  unfold after_toggle, before_toggle.
  destruct (toggle_block_changes inp (clock_block inp (set_button_block inp s)))
    as (? & ? & ? & ? & ? & ? & ->).
  destruct (clock_block_changes inp (set_button_block inp s))
    as (? & ? & ? & ? & ? & ? & ? & ? & ->).
  revert Hc Ht Hsw. generalize (set_button_block inp s). intros s1 Hc Ht Hsw.
  destruct s1. cbn in *. split; [done|]. split; [done|]. exact Ht.
Qed.

(** X7.  The stopwatch and the countdown move only while their own mode is
    shown.  A tick that ends in a mode other than Stopwatch leaves the
    stopwatch and its running flag as they were, running or not; a tick
    that starts and ends in a mode other than Timer leaves the countdown
    and its running flag as they were. *)
Theorem hidden_modes_stand_still (inp : Inputs) (s : State) :
  (modeNumber (loop inp s) <> 1 ->
   stopWatchTime (loop inp s) = stopWatchTime s /\
   isStopwatchCounting (loop inp s) = isStopwatchCounting s) /\
  (modeNumber s <> 2 -> modeNumber (loop inp s) <> 2 ->
   timer (loop inp s) = timer s /\
   isTimerCounting (loop inp s) = isTimerCounting s).
Proof.
  destruct (before_toggle_keeps inp s) as (Hsw & Hc & Htm).
  rewrite loop_after_toggle.
  destruct (mode_switch_control inp (after_toggle inp s)) as (-> & _).
  revert Hsw Hc Htm. generalize (after_toggle inp s). intros s3 Hsw Hc Htm.
  unfold mode_switch. split.
  - intros Hm. destruct (Z.eqb_spec (modeNumber s3) 0).
    { destruct (led_display_io (timeOfDay s3) s3) as (? & ? & ->).
      by destruct s3. }
    destruct (Z.eqb_spec (modeNumber s3) 1); [done|].
    destruct (Z.eqb_spec (modeNumber s3) 2); [|done].
    destruct (run_timer_changes inp s3)
      as (? & ? & ? & ? & ? & ? & ? & ? & ? & ? & ->).
    by destruct s3.
  - intros Hm0 Hm. destruct (Htm Hm0) as [Ht Hct].
    destruct (Z.eqb_spec (modeNumber s3) 0).
    { destruct (led_display_io (timeOfDay s3) s3) as (? & ? & ->).
      by destruct s3. }
    destruct (Z.eqb_spec (modeNumber s3) 1).
    { destruct (run_stopwatch_changes inp s3) as (? & ? & ? & ? & ? & ? & ->).
      by destruct s3. }
    by destruct (Z.eqb_spec (modeNumber s3) 2).
Qed.

(** The theorem on the tick that takes the running stopwatch out of view. *)
Lemma hidden_modes_stand_still_witness :
  stopWatchTime (loop idle stopwatch_running) = stopWatchTime stopwatch_running /\
  isStopwatchCounting (loop idle stopwatch_running) = 1.
Proof.
  destruct (proj1 (hidden_modes_stand_still idle stopwatch_running)) as [Ht Hc].
  - vm_compute. discriminate.
  - split; [exact Ht|]. rewrite Hc. vm_compute. reflexivity.
Defined.

(** ** An expired timer *)

Lemma timer_buttons_isSettingTime inp s :
  isSettingTime (timer_buttons inp s) = isSettingTime s.
Proof.
  destruct (timer_buttons_changes inp s) as (? & ? & ? & ? & ->). by destruct s.
Qed.

Lemma timer_buttons_zero inp s :
  timer s = zero_time -> timer (timer_buttons inp s) = zero_time.
Proof.
  intros Hz. by destruct (timer_buttons_value inp s) as [-> | ->].
Qed.

(** X8.  A countdown at 00:00:00.000 stays there on every tick that does
    not end in editing, whatever the buttons do; in Timer mode such a tick
    runs the flashing code instead of counting.  Pushing start on an
    expired timer sets its flag but never moves it. *)
Theorem expired_timer_stays (inp : Inputs) (s : State) :
  timer s = zero_time -> isSettingTime (loop inp s) = 0 ->
  timer (loop inp s) = zero_time /\
  (modeNumber (loop inp s) = 2 ->
   loop inp s = timer_flash (timer_buttons inp (after_toggle inp s))).
Proof.
  intros Hz. rewrite loop_after_toggle.
  destruct (mode_switch_control inp (after_toggle inp s)) as (-> & -> & _).
  assert (H3 : timer (after_toggle inp s) = zero_time).
  { unfold after_toggle, before_toggle.
    destruct (toggle_block_times inp (clock_block inp (set_button_block inp s)))
      as (_ & _ & ->).
    destruct (clock_block_control inp (set_button_block inp s)) as (_ & -> & _).
    by destruct (set_button_block_timer inp s) as [-> | ->]. }
  revert H3. generalize (after_toggle inp s). intros s3 H3 He.
  assert (Hrun : run_timer inp s3 = timer_flash (timer_buttons inp s3)).
  { unfold run_timer. cbv zeta.
    rewrite timer_buttons_isSettingTime, He, timer_buttons_zero by done.
    reflexivity. }
  unfold mode_switch. split.
  - destruct (Z.eqb_spec (modeNumber s3) 0).
    { by destruct (io_only_times _ _ (led_display_io (timeOfDay s3) s3))
        as (_ & _ & ->). }
    destruct (Z.eqb_spec (modeNumber s3) 1).
    { by destruct (run_stopwatch_frame inp s3) as [_ ->]. }
    destruct (Z.eqb_spec (modeNumber s3) 2); [|done].
    rewrite Hrun, timer_flash_value. by apply timer_buttons_zero.
  - intros ->. exact Hrun.
Qed.

(** The theorem on a tick in Timer mode with func1 held, from the state
    where clear went down on the untouched timer. *)
Lemma expired_timer_stays_witness :
  timer (loop press_f1 timer_clear_down) = zero_time.
Proof.
  apply (expired_timer_stays press_f1 timer_clear_down).
  - vm_compute. reflexivity.
  - vm_compute. reflexivity.
Defined.

(** ** The ranges of the control variables *)

Ltac solve_control :=
  unfold control_inv, flag, TICKRATE; cbv zeta; abstract_io; simpl_state;
  intros Hinv; case_tests; simpl_state;
  repeat norm_int; unfold int_rem;
  repeat match goal with |- _ /\ _ => split end; first [lia | zlia].

Lemma control_inv_io s s' : io_only s s' -> control_inv s -> control_inv s'.
Proof. intros (p & o & ->). by destruct s. Qed.

Lemma control_inv_put_time r t s : control_inv s -> control_inv (put_time r t s).
Proof. by destruct s, r. Qed.

Lemma stopwatch_start_stop_control inp s :
  control_inv s -> control_inv (stopwatch_start_stop inp s).
Proof.
  unfold stopwatch_start_stop. destruct s, inp as [b0 b1 [] b3 b4]; solve_control.
Qed.

Lemma stopwatch_clear_control inp s :
  control_inv s -> control_inv (stopwatch_clear inp s).
Proof.
  unfold stopwatch_clear. destruct s, inp as [b0 b1 b2 [] b4]; solve_control.
Qed.

Lemma stopwatch_count_control s :
  control_inv s -> control_inv (stopwatch_count s).
Proof. unfold stopwatch_count. destruct s; solve_control. Qed.

Lemma set_time_select_control inp s :
  control_inv s -> control_inv (set_time_select inp s).
Proof.
  unfold set_time_select. destruct s, inp as [b0 b1 b2 b3 []]; solve_control.
Qed.

Lemma set_time_clear_control r inp s :
  control_inv s -> control_inv (set_time_clear r inp s).
Proof.
  unfold set_time_clear. destruct s, r, inp as [b0 b1 b2 [] b4]; solve_control.
Qed.

Lemma set_time_increment_control r inp s :
  control_inv s -> control_inv (set_time_increment r inp s).
Proof.
  unfold set_time_increment.
  destruct s, r, inp as [b0 b1 [] b3 b4]; solve_control.
Qed.

Lemma timer_start_stop_control inp s :
  control_inv s -> control_inv (timer_start_stop inp s).
Proof.
  unfold timer_start_stop. destruct s, inp as [b0 b1 [] b3 b4]; solve_control.
Qed.

Lemma timer_clear_control inp s :
  control_inv s -> control_inv (timer_clear inp s).
Proof.
  unfold timer_clear. destruct s, inp as [b0 b1 b2 [] b4]; solve_control.
Qed.

Lemma timer_flash_control s : control_inv s -> control_inv (timer_flash s).
Proof. unfold timer_flash. destruct s; solve_control. Qed.

Lemma timer_count_control s : control_inv s -> control_inv (timer_count s).
Proof. unfold timer_count. destruct s; solve_control. Qed.

Lemma set_button_block_control_inv inp s :
  control_inv s -> control_inv (set_button_block inp s).
Proof.
  unfold set_button_block. destruct s, inp as [[] b1 b2 b3 b4]; solve_control.
Qed.

Lemma toggle_block_control_inv inp s :
  control_inv s -> control_inv (toggle_block inp s).
Proof.
  unfold toggle_block. destruct s, inp as [b0 [] b2 b3 b4]; solve_control.
Qed.

Lemma set_time_control r inp s : control_inv s -> control_inv (set_time r inp s).
Proof.
  intros Hs. unfold set_time, upd_time. cbv zeta.
  by apply set_time_increment_control, set_time_clear_control,
    set_time_select_control, control_inv_put_time.
Qed.

Lemma run_stopwatch_control inp s :
  control_inv s -> control_inv (run_stopwatch inp s).
Proof.
  intros Hs. unfold run_stopwatch. cbv zeta.
  eapply control_inv_io; [apply update_lcd_io|].
  by apply stopwatch_count_control, stopwatch_clear_control,
    stopwatch_start_stop_control.
Qed.

Lemma run_timer_control inp s : control_inv s -> control_inv (run_timer inp s).
Proof.
  intros Hs. unfold run_timer. cbv zeta.
  assert (H1 : control_inv (timer_buttons inp s)).
  { unfold timer_buttons. destruct (isSettingTime s =? 0); [|done].
    by apply timer_clear_control, timer_start_stop_control. }
  revert H1. generalize (timer_buttons inp s). intros s1 H1.
  destruct (negb (isSettingTime s1 =? 0)); [by apply set_time_control|].
  destruct (timer_sum (timer s1) =? 0); [by apply timer_flash_control|].
  destruct (negb (isTimerCounting s1 =? 0)); [by apply timer_count_control|done].
Qed.

Lemma clock_block_control_inv inp s :
  control_inv s -> control_inv (clock_block inp s).
Proof.
  intros Hs. unfold clock_block. cbv zeta.
  assert (H1 : control_inv
    (if negb (isSettingTime s =? 1) || negb (modeNumber s =? 0)
     then upd_time TimeOfDay count_time s else set_time TimeOfDay inp s)).
  { destruct (negb (isSettingTime s =? 1) || negb (modeNumber s =? 0)).
    - by apply control_inv_put_time.
    - by apply set_time_control. }
  revert H1. generalize
    (if negb (isSettingTime s =? 1) || negb (modeNumber s =? 0)
     then upd_time TimeOfDay count_time s else set_time TimeOfDay inp s).
  intros s1 H1.
  destruct (negb (isSettingTime s1 =? 1) && (modeNumber s1 =? 0)); [|done].
  eapply control_inv_io; [apply update_lcd_io|done].
Qed.

Lemma mode_switch_control_inv inp s :
  control_inv s -> control_inv (mode_switch inp s).
Proof.
  intros Hs. unfold mode_switch.
  destruct (modeNumber s =? 0).
  { eapply control_inv_io; [apply led_display_io|done]. }
  destruct (modeNumber s =? 1); [by apply run_stopwatch_control|].
  destruct (modeNumber s =? 2); [by apply run_timer_control|done].
Qed.

Lemma loop_control_inv inp s : control_inv s -> control_inv (loop inp s).
Proof.
  intros Hs. unfold loop.
  by apply mode_switch_control_inv, toggle_block_control_inv,
    clock_block_control_inv, set_button_block_control_inv.
Qed.

(** X9.  In every state reached from start-up the control variables are
    in range: the mode and the edit cursor in 0..2, the auto-repeat counter
    a multiple of the tick in 0..999, [flash] in 0..79, and the editing
    flag, the two running flags and the five release latches at 0 or 1. *)
Theorem reachable_control_inv (s : State) : reachable s -> control_inv s.
Proof.
  induction 1 as [|inp s _ IH]; [|by apply loop_control_inv].
  apply (control_inv_io globals0).
  - eapply io_only_trans; [apply lcd_setCursor_io | apply lcd_print_io].
  - unfold control_inv, flag, TICKRATE. cbn.
    repeat match goal with |- _ /\ _ => split end;
      first [lia | reflexivity | by left].
Qed.

(** The theorem after the run that sets the timer and starts it. *)
Lemma reachable_control_inv_witness : control_inv timer_started.
Proof.
  apply (reachable_control_inv timer_started). apply reachable_run. constructor.
Defined.

(** ** One push of start/stop in Stopwatch mode *)

Lemma run_app inps1 inps2 s : run (inps1 ++ inps2) s = run inps2 (run inps1 s).
Proof. revert s. induction inps1 as [|inp rest IH]; intros s; cbn; [done|]. apply IH. Qed.

Lemma loop_stopwatch_view inp s :
  stopwatch_view s -> setButton inp = false -> toggleButton inp = false ->
  loop inp s = run_stopwatch inp (upd_time TimeOfDay count_time s).
Proof.
  unfold stopwatch_view.
  destruct s, inp as [b0 b1 b2 b3 b4]. cbn.
  intros (-> & -> & -> & -> & ->) -> ->. reflexivity.
Qed.

Lemma stopwatch_clear_quiet inp s :
  f2Button inp = false -> f2ButtonRelease s = 0 -> stopwatch_clear inp s = s.
Proof.
  unfold stopwatch_clear.
  destruct s, inp as [b0 b1 b2 b3 b4]. cbn. intros -> ->. reflexivity.
Qed.

Lemma stopwatch_count_fields s :
  isStopwatchCounting (stopwatch_count s) = isStopwatchCounting s /\
  f1ButtonRelease (stopwatch_count s) = f1ButtonRelease s /\
  f2ButtonRelease (stopwatch_count s) = f2ButtonRelease s /\
  stopWatchTime (stopwatch_count s)
  = if isStopwatchCounting s =? 1 then count_time (stopWatchTime s)
    else stopWatchTime s.
Proof.
  unfold stopwatch_count. destruct s. cbv zeta. abstract_io. simpl_state.
  by case_tests.
Qed.

(** With the clear button up and no release of it pending, [run_stopwatch]
    is the start/stop block followed by the counting. *)
Lemma run_stopwatch_quiet inp s :
  f2Button inp = false -> f2ButtonRelease s = 0 ->
  isStopwatchCounting (run_stopwatch inp s)
  = isStopwatchCounting (stopwatch_start_stop inp s) /\
  f1ButtonRelease (run_stopwatch inp s)
  = f1ButtonRelease (stopwatch_start_stop inp s) /\
  f2ButtonRelease (run_stopwatch inp s) = 0 /\
  stopWatchTime (run_stopwatch inp s)
  = if isStopwatchCounting (stopwatch_start_stop inp s) =? 1
    then count_time (stopWatchTime s) else stopWatchTime s.
Proof.
  intros Hlow Hlatch. unfold run_stopwatch. cbv zeta.
  assert (H1 : f2ButtonRelease (stopwatch_start_stop inp s) = 0 /\
               stopWatchTime (stopwatch_start_stop inp s) = stopWatchTime s).
  { destruct (stopwatch_start_stop_changes inp s) as (? & ? & ->).
    by destruct s. }
  revert H1. generalize (stopwatch_start_stop inp s). intros s1 [H1 Hsw].
  rewrite stopwatch_clear_quiet by done.
  destruct (stopwatch_count_fields s1) as (Hc & Hf1 & Hf2 & Ht).
  revert Hc Hf1 Hf2 Ht. generalize (stopwatch_count s1). intros s2 Hc Hf1 Hf2 Ht.
  destruct (update_lcd_lcd_only (stopWatchTime s2) s2) as (o & ->).
  destruct s2. cbn in *. rewrite <- Hsw. by rewrite <- H1.
Qed.

Lemma stopwatch_start_stop_fields inp s :
  (f1Button inp = true ->
   isStopwatchCounting (stopwatch_start_stop inp s) = isStopwatchCounting s /\
   f1ButtonRelease (stopwatch_start_stop inp s) = 1) /\
  (f1Button inp = false -> f1ButtonRelease s = 1 ->
   isStopwatchCounting (stopwatch_start_stop inp s)
   = (if isStopwatchCounting s =? 0 then 1 else 0) /\
   f1ButtonRelease (stopwatch_start_stop inp s) = 0) /\
  (f1Button inp = false -> f1ButtonRelease s = 0 ->
   stopwatch_start_stop inp s = s).
Proof.
  unfold stopwatch_start_stop.
  destruct s, inp as [b0 b1 b2 b3 b4]. cbn.
  split; [|split]; intros ->; [|intros ->..]; cbn; [done| |done].
  by case_tests.
Qed.

Lemma stopwatch_view_kept inp s :
  stopwatch_view s -> setButton inp = false -> toggleButton inp = false ->
  f2Button inp = false -> stopwatch_view (loop inp s).
Proof.
  intros Hv Hs Ht Hf2. rewrite loop_stopwatch_view by done.
  destruct (run_stopwatch_quiet inp (upd_time TimeOfDay count_time s))
    as (_ & _ & Hl & _); [done | by destruct s, Hv as (_ & _ & _ & _ & ?) |].
  revert Hl.
  destruct (run_stopwatch_changes inp (upd_time TimeOfDay count_time s))
    as (? & ? & ? & ? & ? & ? & ->).
  unfold stopwatch_view in *. destruct s. simpl_state. cbn in Hv.
  intros Hl. destruct Hv as (? & ? & ? & ? & ?). done.
Qed.

Lemma stopwatch_start_stop_timeOfDay inp t s :
  stopwatch_start_stop inp (with_timeOfDay t s)
  = with_timeOfDay t (stopwatch_start_stop inp s).
Proof.
  unfold stopwatch_start_stop.
  destruct s, inp as [b0 b1 [] b3 b4]; cbv zeta; simpl_state; by case_tests.
Qed.

(** One tick in the stopwatch view, with only func1 free to move. *)
Lemma loop_stopwatch_step inp s :
  stopwatch_view s -> setButton inp = false -> toggleButton inp = false ->
  f2Button inp = false ->
  stopwatch_view (loop inp s) /\
  isStopwatchCounting (loop inp s)
  = isStopwatchCounting (stopwatch_start_stop inp s) /\
  f1ButtonRelease (loop inp s) = f1ButtonRelease (stopwatch_start_stop inp s) /\
  stopWatchTime (loop inp s)
  = if isStopwatchCounting (stopwatch_start_stop inp s) =? 1
    then count_time (stopWatchTime s) else stopWatchTime s.
Proof.
  intros Hv Hs Ht Hf2. split; [by apply stopwatch_view_kept|].
  rewrite loop_stopwatch_view by done.
  destruct (run_stopwatch_quiet inp (upd_time TimeOfDay count_time s))
    as (Hc & Hf1 & _ & Hsw); [done | by destruct s, Hv as (_ & _ & _ & _ & ?) |].
  rewrite Hc, Hf1, Hsw. unfold upd_time, put_time.
  rewrite stopwatch_start_stop_timeOfDay.
  generalize (stopwatch_start_stop inp s). intros s1.
  by destruct s, s1.
Qed.

Lemma hold_run n s :
  stopwatch_view s ->
  stopwatch_view (run (replicate (S n) press_f1) s) /\
  f1ButtonRelease (run (replicate (S n) press_f1) s) = 1 /\
  isStopwatchCounting (run (replicate (S n) press_f1) s) = isStopwatchCounting s /\
  stopWatchTime (run (replicate (S n) press_f1) s)
  = if isStopwatchCounting s =? 1
    then Nat.iter (S n) count_time (stopWatchTime s) else stopWatchTime s.
Proof.
  revert s. induction n as [|n IH]; intros s Hv.
  - cbn [replicate run].
    destruct (loop_stopwatch_step press_f1 s Hv eq_refl eq_refl eq_refl)
      as (Hv' & Hc & Hl & Ht).
    destruct (proj1 (stopwatch_start_stop_fields press_f1 s) eq_refl) as [Hc1 Hl1].
    rewrite Hc1 in Hc, Ht. rewrite Hl1 in Hl. done.
  - change (replicate (S (S n)) press_f1)
      with (press_f1 :: replicate (S n) press_f1).
    cbn [run].
    destruct (loop_stopwatch_step press_f1 s Hv eq_refl eq_refl eq_refl)
      as (Hv' & Hc & Hl & Ht).
    destruct (proj1 (stopwatch_start_stop_fields press_f1 s) eq_refl) as [Hc1 Hl1].
    rewrite Hc1 in Hc, Ht.
    destruct (IH (loop press_f1 s) Hv') as (Hv2 & Hl2 & Hc2 & Ht2).
    rewrite Hc2, Ht2, Hc, Ht. split; [done|]. split; [done|]. split; [done|].
    destruct (isStopwatchCounting s =? 1); [|done].
    by rewrite <- Nat.iter_succ_r.
Qed.

Lemma idle_run m s :
  stopwatch_view s -> f1ButtonRelease s = 0 ->
  stopwatch_view (run (replicate m idle) s) /\
  f1ButtonRelease (run (replicate m idle) s) = 0 /\
  isStopwatchCounting (run (replicate m idle) s) = isStopwatchCounting s /\
  stopWatchTime (run (replicate m idle) s)
  = if isStopwatchCounting s =? 1
    then Nat.iter m count_time (stopWatchTime s) else stopWatchTime s.
Proof.
  revert s. induction m as [|m IH]; intros s Hv Hl0.
  - cbn. by destruct (isStopwatchCounting s =? 1).
  - cbn [replicate run].
    destruct (loop_stopwatch_step idle s Hv eq_refl eq_refl eq_refl)
      as (Hv' & Hc & Hl & Ht).
    rewrite (proj2 (proj2 (stopwatch_start_stop_fields idle s)) eq_refl Hl0)
      in Hc, Hl, Ht.
    destruct (IH (loop idle s) Hv') as (Hv2 & Hl2 & Hc2 & Ht2); [congruence|].
    rewrite Hc2, Ht2, Hc, Ht. split; [done|]. split; [done|]. split; [done|].
    destruct (isStopwatchCounting s =? 1); [|done].
    by rewrite <- Nat.iter_succ_r.
Qed.

(** X10.  In the stopwatch view with no release of func1 pending, holding
    func1 for any number of ticks and letting it go for any number of
    ticks switches the running flag exactly once.  A stopped stopwatch is
    then running and has counted one tick for each tick since the release,
    the tick of the release included; a running one is stopped and has
    counted one tick for each tick the button was held. *)
Theorem stopwatch_push (n m : nat) (s : State) :
  stopwatch_view s -> f1ButtonRelease s = 0 -> (1 <= n)%nat -> (1 <= m)%nat ->
  stopwatch_view (run (replicate n press_f1 ++ replicate m idle) s) /\
  f1ButtonRelease (run (replicate n press_f1 ++ replicate m idle) s) = 0 /\
  (isStopwatchCounting s = 0 ->
   isStopwatchCounting (run (replicate n press_f1 ++ replicate m idle) s) = 1 /\
   stopWatchTime (run (replicate n press_f1 ++ replicate m idle) s)
   = Nat.iter m count_time (stopWatchTime s)) /\
  (isStopwatchCounting s = 1 ->
   isStopwatchCounting (run (replicate n press_f1 ++ replicate m idle) s) = 0 /\
   stopWatchTime (run (replicate n press_f1 ++ replicate m idle) s)
   = Nat.iter n count_time (stopWatchTime s)).
Proof.
  intros Hv Hl0 Hn Hm.
  destruct n as [|n]; [lia|]. destruct m as [|m]; [lia|].
  rewrite run_app. change (replicate (S m) idle) with (idle :: replicate m idle).
  cbn [run].
  destruct (hold_run n s Hv) as (Hv1 & Hl1 & Hc1 & Ht1).
  revert Hv1 Hl1 Hc1 Ht1.
  generalize (run (replicate (S n) press_f1) s). intros s1 Hv1 Hl1 Hc1 Ht1.
  destruct (loop_stopwatch_step idle s1 Hv1 eq_refl eq_refl eq_refl)
    as (Hv2 & Hc2 & Hl2 & Ht2).
  destruct (proj1 (proj2 (stopwatch_start_stop_fields idle s1)) eq_refl Hl1)
    as [Hc Hl].
  rewrite Hc in Hc2, Ht2. rewrite Hl in Hl2.
  revert Hv2 Hc2 Hl2 Ht2. generalize (loop idle s1). intros s2 Hv2 Hc2 Hl2 Ht2.
  destruct (idle_run m s2 Hv2 Hl2) as (Hv3 & Hl3 & Hc3 & Ht3).
  split; [done|]. split; [done|].
  rewrite Hc3, Ht3, Hc2, Ht2, Hc1, Ht1. split; intros Hflag; rewrite Hflag; cbn.
  - split; [done|]. by rewrite <- Nat.iter_succ_r.
  - done.
Qed.

(** The theorem from Stopwatch mode right after start-up: a push of three
    ticks, then five ticks with the button up. *)
Lemma stopwatch_push_witness :
  isStopwatchCounting
    (run (replicate 3 press_f1 ++ replicate 5 idle) (run (click press_toggle) init))
  = 1 /\
  stopWatchTime
    (run (replicate 3 press_f1 ++ replicate 5 idle) (run (click press_toggle) init))
  = Nat.iter 5 count_time (stopWatchTime (run (click press_toggle) init)).
Proof.
  destruct (stopwatch_push 3 5 (run (click press_toggle) init))
    as (_ & _ & Hstart & _).
  - vm_compute. repeat split.
  - vm_compute. reflexivity.
  - lia.
  - lia.
  - apply Hstart. vm_compute. reflexivity.
Defined.

(** ** The edit cursor *)

Lemma set_time_select_fields inp s :
  (f3Button inp = true ->
   segment (set_time_select inp s) = segment s /\
   f3ButtonRelease (set_time_select inp s) = 1) /\
  (f3Button inp = false -> f3ButtonRelease s = 1 ->
   segment (set_time_select inp s) = int_rem (int_add (segment s) 1) 3 /\
   f3ButtonRelease (set_time_select inp s) = 0) /\
  (f3Button inp = false -> f3ButtonRelease s = 0 -> set_time_select inp s = s).
Proof.
  unfold set_time_select.
  destruct s, inp as [b0 b1 b2 b3 b4]. cbn -[int_add int_rem].
  split; [|split]; intros ->; [|intros ->..]; done.
Qed.

Lemma set_time_select_of r inp s :
  segment (set_time r inp s) = segment (set_time_select inp s) /\
  f3ButtonRelease (set_time r inp s) = f3ButtonRelease (set_time_select inp s).
Proof.
  unfold set_time. cbv zeta.
  destruct (set_time_increment_changes r inp
              (set_time_clear r inp (set_time_select inp
                 (upd_time r (set_milliseconds 0) s))))
    as (? & ? & ? & ? & ? & ->).
  destruct (set_time_clear_changes r inp (set_time_select inp
              (upd_time r (set_milliseconds 0) s)))
    as (? & ? & ? & ? & ->).
  unfold set_time_select.
  destruct s, r, inp as [b0 b1 b2 b3 []]; cbv zeta; simpl_state; by case_tests.
Qed.

Lemma push_select_segment r s :
  0 <= segment s <= 2 ->
  segment (push_select r s) = (segment s + 1) mod 3 /\
  f3ButtonRelease (push_select r s) = 0.
Proof.
  intros Hseg. unfold push_select.
  destruct (set_time_select_of r press_f3 s) as [Hs1 Hl1].
  destruct (proj1 (set_time_select_fields press_f3 s) eq_refl) as [Hs1' Hl1'].
  rewrite Hs1' in Hs1. rewrite Hl1' in Hl1.
  revert Hs1 Hl1. generalize (set_time r press_f3 s). intros s1 Hs1 Hl1.
  destruct (set_time_select_of r idle s1) as [-> ->].
  destruct (proj1 (proj2 (set_time_select_fields idle s1)) eq_refl Hl1)
    as [-> ->].
  rewrite Hs1, mode_step by done. done.
Qed.

(** X11.  While editing, with the cursor in 0..2, one push of func3 moves
    the cursor one step along seconds -> minutes -> hours -> seconds and
    leaves no release pending; three pushes bring it back to where it
    was. *)
Theorem select_cycles (r : timeRef) (s : State) :
  0 <= segment s <= 2 ->
  segment (push_select r s) = (segment s + 1) mod 3 /\
  segment (push_select r (push_select r (push_select r s))) = segment s.
Proof.
  intros Hseg.
  destruct (push_select_segment r s Hseg) as [H1 _].
  split; [exact H1|].
  assert (R1 : 0 <= segment (push_select r s) <= 2) by (rewrite H1; zlia).
  destruct (push_select_segment r _ R1) as [H2 _].
  assert (R2 : 0 <= segment (push_select r (push_select r s)) <= 2)
    by (rewrite H2; zlia).
  destruct (push_select_segment r _ R2) as [H3 _].
  rewrite H3, H2, H1. zlia.
Qed.

(** The theorem in the state that edits the clock. *)
Lemma select_cycles_witness :
  segment (push_select TimeOfDay editing_clock)
  = (segment editing_clock + 1) mod 3 /\
  segment (push_select TimeOfDay (push_select TimeOfDay
             (push_select TimeOfDay editing_clock)))
  = segment editing_clock.
Proof.
  apply (select_cycles TimeOfDay editing_clock). vm_compute.
  split; discriminate.
Defined.

(** ** Auto-repeat while func1 is held *)

Lemma set_time_clear_quiet r inp s :
  f2Button inp = false -> f2ButtonRelease s = 0 -> set_time_clear r inp s = s.
Proof.
  unfold set_time_clear.
  destruct s, inp as [b0 b1 b2 b3 b4]. cbn. intros -> ->. reflexivity.
Qed.

Lemma set_time_increment_held r s :
  f1ButtonRelease (set_time_increment r press_f1 s) = 1 /\
  f2ButtonRelease (set_time_increment r press_f1 s) = f2ButtonRelease s /\
  f3ButtonRelease (set_time_increment r press_f1 s) = f3ButtonRelease s /\
  segment (set_time_increment r press_f1 s) = segment s /\
  increment (set_time_increment r press_f1 s)
  = int_rem (int_add (increment s) TICKRATE) 1000 /\
  get_time r (set_time_increment r press_f1 s)
  = if int_rem (increment s) 152 =? 0
    then increment_segment (segment s) (get_time r s) else get_time r s.
Proof.
  unfold set_time_increment.
  destruct s, r; cbv zeta; abstract_io; simpl_state; by case_tests.
Qed.

(** One tick of [set_time] with func1 down and the other two buttons up
    and quiet. *)
Lemma set_time_held r s :
  f2ButtonRelease s = 0 -> f3ButtonRelease s = 0 ->
  f2ButtonRelease (set_time r press_f1 s) = 0 /\
  f3ButtonRelease (set_time r press_f1 s) = 0 /\
  segment (set_time r press_f1 s) = segment s /\
  increment (set_time r press_f1 s)
  = int_rem (int_add (increment s) TICKRATE) 1000 /\
  get_time r (set_time r press_f1 s)
  = if int_rem (increment s) 152 =? 0
    then increment_segment (segment s) (set_milliseconds 0 (get_time r s))
    else set_milliseconds 0 (get_time r s).
Proof.
  intros H2 H3. unfold set_time. cbv zeta.
  set (s0 := upd_time r (set_milliseconds 0) s).
  assert (H0 : f2ButtonRelease s0 = 0 /\ f3ButtonRelease s0 = 0 /\
               segment s0 = segment s /\ increment s0 = increment s /\
               get_time r s0 = set_milliseconds 0 (get_time r s)).
  { subst s0. by destruct s, r. }
  clearbody s0. destruct H0 as (H2' & H3' & Hseg & Hinc & Ht).
  rewrite (proj2 (proj2 (set_time_select_fields press_f1 s0)) eq_refl H3').
  rewrite set_time_clear_quiet by done.
  destruct (set_time_increment_held r s0) as (_ & -> & -> & -> & -> & ->).
  by rewrite H2', H3', Hseg, Hinc, Ht.
Qed.

Lemma set_milliseconds_same t :
  milliseconds t = 0 -> set_milliseconds 0 t = t.
Proof. destruct t. cbn. by intros ->. Qed.

(** Between two repeats: while the counter climbs from above 0 to 152 the
    ticks change nothing but the counter. *)
Lemma held_between j r s :
  f2ButtonRelease s = 0 -> f3ButtonRelease s = 0 ->
  milliseconds (get_time r s) = 0 ->
  0 < increment s -> increment s mod TICKRATE = 0 ->
  increment s + TICKRATE * Z.of_nat j <= 152 ->
  f2ButtonRelease (Nat.iter j (set_time r press_f1) s) = 0 /\
  f3ButtonRelease (Nat.iter j (set_time r press_f1) s) = 0 /\
  segment (Nat.iter j (set_time r press_f1) s) = segment s /\
  increment (Nat.iter j (set_time r press_f1) s)
  = increment s + TICKRATE * Z.of_nat j /\
  get_time r (Nat.iter j (set_time r press_f1) s) = get_time r s.
Proof.
  intros H2 H3 Hms Hpos Hgrid. unfold TICKRATE in *.
  induction j as [|j IH]; intros Hle.
  - change (Nat.iter 0 (set_time r press_f1) s) with s.
    repeat split; try done. lia.
  - rewrite Nat.iter_succ.
    destruct IH as (I2 & I3 & Iseg & Iinc & It); [lia|].
    revert I2 I3 Iseg Iinc It.
    generalize (Nat.iter j (set_time r press_f1) s). intros s1 I2 I3 Iseg Iinc It.
    destruct (set_time_held r s1 I2 I3) as (-> & -> & -> & -> & ->).
    rewrite Iseg, Iinc, It. unfold TICKRATE.
    rewrite int_add_id by lia.
    assert (Hrem : int_rem (increment s + 8 * Z.of_nat j) 152 <> 0).
    { unfold int_rem. zlia. }
    destruct (Z.eqb_spec (int_rem (increment s + 8 * Z.of_nat j) 152) 0);
      [done|].
    rewrite set_milliseconds_same by done.
    split; [done|]. split; [done|]. split; [done|]. split; [|done].
    rewrite int_rem_small by lia. lia.
Qed.

(** X12.  Holding func1 while editing, with the other two buttons up and
    quiet and the auto-repeat counter at 0: the first tick increments the
    unit under the cursor, and holding on for up to 19 ticks in all
    increments it exactly once; the 20th tick, 152 ms after the first,
    increments it a second time. *)
Theorem auto_repeat_interval (k : nat) (r : timeRef) (s : State) :
  f2ButtonRelease s = 0 -> f3ButtonRelease s = 0 -> increment s = 0 ->
  (1 <= k <= 19)%nat ->
  get_time r (Nat.iter k (set_time r press_f1) s)
  = increment_segment (segment s) (set_milliseconds 0 (get_time r s)) /\
  increment (Nat.iter k (set_time r press_f1) s) = TICKRATE * Z.of_nat k /\
  get_time r (Nat.iter 20 (set_time r press_f1) s)
  = increment_segment (segment s)
      (increment_segment (segment s) (set_milliseconds 0 (get_time r s))).
Proof.
  intros H2 H3 Hinc Hk.
  destruct (set_time_held r s H2 H3) as (I2 & I3 & Iseg & Iinc & It).
  rewrite Hinc in Iinc, It. change (int_rem 0 152 =? 0) with true in It.
  change (int_rem (int_add 0 TICKRATE) 1000) with 8 in Iinc.
  assert (Hms : milliseconds (get_time r (set_time r press_f1 s)) = 0).
  { rewrite It. by rewrite increment_segment_milliseconds. }
  assert (Hsteps : forall j, (j <= 18)%nat ->
    f2ButtonRelease (Nat.iter (S j) (set_time r press_f1) s) = 0 /\
    f3ButtonRelease (Nat.iter (S j) (set_time r press_f1) s) = 0 /\
    segment (Nat.iter (S j) (set_time r press_f1) s) = segment s /\
    increment (Nat.iter (S j) (set_time r press_f1) s) = 8 * Z.of_nat (S j) /\
    get_time r (Nat.iter (S j) (set_time r press_f1) s)
    = increment_segment (segment s) (set_milliseconds 0 (get_time r s))).
  { intros j Hj. rewrite Nat.iter_succ_r.
    destruct (held_between j r (set_time r press_f1 s))
      as (J2 & J3 & Jseg & Jinc & Jt); try done.
    - rewrite Iinc. lia.
    - by rewrite Iinc.
    - rewrite Iinc. unfold TICKRATE. lia.
    - rewrite J2, J3, Jseg, Jinc, Jt, Iseg, Iinc, It. unfold TICKRATE.
      repeat split; try done. lia. }
  split; [|split].
  - destruct k as [|k]; [lia|]. apply Hsteps. lia.
  - destruct k as [|k]; [lia|].
    destruct (Hsteps k) as (_ & _ & _ & -> & _); [lia|]. done.
  - change 20%nat with (S 19). rewrite Nat.iter_succ.
    destruct (Hsteps 18%nat) as (K2 & K3 & Kseg & Kinc & Kt); [lia|].
    revert K2 K3 Kseg Kinc Kt.
    generalize (Nat.iter 19 (set_time r press_f1) s). intros s1 K2 K3 Kseg Kinc Kt.
    destruct (set_time_held r s1 K2 K3) as (_ & _ & _ & _ & ->).
    rewrite Kseg, Kinc, Kt.
    change (int_rem (8 * Z.of_nat 19) 152 =? 0) with true. cbv iota.
    rewrite set_milliseconds_same; [done|].
    by rewrite increment_segment_milliseconds.
Qed.

(** The theorem for the clock being edited, func1 held for 19 ticks. *)
Lemma auto_repeat_interval_witness :
  get_time TimeOfDay (Nat.iter 19 (set_time TimeOfDay press_f1) editing_clock)
  = increment_segment (segment editing_clock)
      (set_milliseconds 0 (get_time TimeOfDay editing_clock)) /\
  increment (Nat.iter 19 (set_time TimeOfDay press_f1) editing_clock)
  = TICKRATE * Z.of_nat 19.
Proof.
  destruct (auto_repeat_interval 19 TimeOfDay editing_clock) as (Ht & Hi & _).
  - vm_compute. reflexivity.
  - vm_compute. reflexivity.
  - vm_compute. reflexivity.
  - lia.
  - split; [exact Ht | exact Hi].
Defined.

(** ** What the set button and the mode toggle show *)

Lemma print_mode_label_label s :
  0 <= modeNumber s <= 2 ->
  print_mode_label s = lcd_print (mode_label (modeNumber s)) s.
Proof.
  intros Hm. unfold print_mode_label, mode_label.
  destruct (Z.eqb_spec (modeNumber s) 0); [done|].
  destruct (Z.eqb_spec (modeNumber s) 1); [done|].
  destruct (Z.eqb_spec (modeNumber s) 2); [done|lia].
Qed.

Lemma out_write_all_leds_low s :
  out (write_all_leds LOW s) = out s ++ leds_off_events.
Proof.
  unfold write_all_leds, leds_off_events.
  generalize (seqZ lowestPin (highestPin - lowestPin + 1)). intros l.
  revert s. induction l as [|p l IH]; intros s; cbn [foldl map].
  - by rewrite app_nil_r.
  - rewrite IH. unfold digitalWrite. destruct s. cbn. by rewrite <- app_assoc.
Qed.

Lemma set_button_enter_timer inp s :
  setButton inp = false -> setButtonRelease s = 1 ->
  isSettingTime s = 0 -> modeNumber s = 2 ->
  set_button_block inp s
  = with_setButtonRelease 0 (with_isTimerCounting 0 (with_timer zero_time
      (write_all_leds LOW (lcd_print "SETTING TIME    "
         (lcd_setCursor 0 0 (with_isSettingTime 1 s)))))).
Proof.
  unfold set_button_block.
  destruct s, inp as [b0 b1 b2 b3 b4]. cbn. intros -> -> -> ->. reflexivity.
Qed.

Lemma set_button_enter_clock inp s :
  setButton inp = false -> setButtonRelease s = 1 ->
  isSettingTime s = 0 -> modeNumber s <> 1 -> modeNumber s <> 2 ->
  set_button_block inp s
  = with_setButtonRelease 0 (lcd_print "SETTING TIME    "
      (lcd_setCursor 0 0 (with_isSettingTime 1 s))).
Proof.
  unfold set_button_block.
  destruct s, inp as [b0 b1 b2 b3 b4]. cbn. intros -> -> -> H1 H2.
  apply Z.eqb_neq in H1, H2. cbn. rewrite H1. cbn.
  unfold lcd_print, lcd_setCursor. simpl_state. by rewrite H2.
Qed.

Lemma set_button_exit inp s :
  setButton inp = false -> setButtonRelease s = 1 ->
  isSettingTime s <> 0 \/ modeNumber s = 1 ->
  set_button_block inp s
  = with_setButtonRelease 0 (with_segment 0 (with_increment 0
      (with_isSettingTime 0 (print_mode_label (lcd_setCursor 0 0 s))))).
Proof.
  unfold set_button_block.
  destruct s, inp as [b0 b1 b2 b3 b4]. cbn. intros -> -> Hc.
  assert (Hcond : (isSettingTime0 =? 0) && negb (modeNumber0 =? 1) = false).
  { destruct Hc as [Hc | ->].
    - apply Z.eqb_neq in Hc. by rewrite Hc.
    - cbn. apply andb_false_r. }
  cbn. by rewrite Hcond.
Qed.

(** X13.  What the release of the set button does.  Outside editing and
    outside Stopwatch mode it switches editing on, shows SETTING TIME and
    leaves the cursor and the auto-repeat counter where they were; in
    Timer mode it also zeroes the countdown, stops it and turns every LED
    off, and in the other modes it leaves the countdown and the pins
    alone.  While editing, or in Stopwatch mode, it switches editing off,
    resets the cursor and the auto-repeat counter to 0, shows the label of
    the mode and leaves the countdown and the pins alone. *)
Theorem set_button_release (inp : Inputs) (s : State) :
  setButton inp = false -> setButtonRelease s = 1 -> 0 <= modeNumber s <= 2 ->
  (isSettingTime s = 0 -> modeNumber s = 2 ->
   isSettingTime (set_button_block inp s) = 1 /\
   timer (set_button_block inp s) = zero_time /\
   isTimerCounting (set_button_block inp s) = 0 /\
   leds_all false (set_button_block inp s) /\
   segment (set_button_block inp s) = segment s /\
   increment (set_button_block inp s) = increment s /\
   out (set_button_block inp s)
   = out s ++ [LcdSetCursor 0 0; LcdPrint "SETTING TIME    "] ++ leds_off_events) /\
  (isSettingTime s = 0 -> modeNumber s = 0 ->
   isSettingTime (set_button_block inp s) = 1 /\
   timer (set_button_block inp s) = timer s /\
   isTimerCounting (set_button_block inp s) = isTimerCounting s /\
   pins (set_button_block inp s) = pins s /\
   segment (set_button_block inp s) = segment s /\
   increment (set_button_block inp s) = increment s /\
   out (set_button_block inp s)
   = out s ++ [LcdSetCursor 0 0; LcdPrint "SETTING TIME    "]) /\
  (isSettingTime s <> 0 \/ modeNumber s = 1 ->
   isSettingTime (set_button_block inp s) = 0 /\
   timer (set_button_block inp s) = timer s /\
   isTimerCounting (set_button_block inp s) = isTimerCounting s /\
   pins (set_button_block inp s) = pins s /\
   segment (set_button_block inp s) = 0 /\
   increment (set_button_block inp s) = 0 /\
   out (set_button_block inp s)
   = out s ++ [LcdSetCursor 0 0; LcdPrint (mode_label (modeNumber s))]).
Proof.
  intros Hlow Hlatch Hm. split; [|split].
  - intros He Hm2. rewrite set_button_enter_timer by done.
    set (s1 := lcd_print "SETTING TIME    "
                 (lcd_setCursor 0 0 (with_isSettingTime 1 s))).
    pose proof (write_all_leds_all LOW s1) as Hleds.
    pose proof (out_write_all_leds_low s1) as Hout.
    assert (H1 : out s1 = out s ++ [LcdSetCursor 0 0; LcdPrint "SETTING TIME    "])
      by (subst s1; unfold lcd_print, lcd_setCursor; destruct s; cbn;
          by rewrite <- app_assoc).
    rewrite H1 in Hout. rewrite <- app_assoc in Hout.
    assert (H2 : isSettingTime s1 = 1 /\ segment s1 = segment s /\
                 increment s1 = increment s)
      by (subst s1; unfold lcd_print, lcd_setCursor; by destruct s).
    clearbody s1. destruct H2 as (H2 & H3 & H4).
    destruct (write_all_leds_io LOW s1) as (p & o & Heq).
    rewrite Heq in *. clear Heq. destruct s1.
    cbn in *. repeat split; try done.
  - intros He Hm0. rewrite set_button_enter_clock by first [done | lia].
    unfold lcd_print, lcd_setCursor.
    destruct s. cbn. repeat split; try done. by rewrite <- app_assoc.
  - intros Hc. rewrite set_button_exit by done.
    rewrite print_mode_label_label
      by (unfold lcd_setCursor; by destruct s).
    unfold lcd_print, lcd_setCursor.
    destruct s. cbn. repeat split; try done. by rewrite <- app_assoc.
Qed.

(** The theorem on the release that opens the editing of the clock, one
    tick after start-up with the set button down. *)
Lemma set_button_release_witness :
  isSettingTime (set_button_block idle set_down) = 1 /\
  segment (set_button_block idle set_down) = segment set_down /\
  out (set_button_block idle set_down)
  = out set_down ++ [LcdSetCursor 0 0; LcdPrint "SETTING TIME    "].
Proof.
  destruct (set_button_release idle set_down) as (_ & Hclock & _).
  - reflexivity.
  - vm_compute. reflexivity.
  - vm_compute. split; discriminate.
  - destruct Hclock as (He & _ & _ & _ & Hs & _ & Ho).
    + vm_compute. reflexivity.
    + vm_compute. reflexivity.
    + split; [exact He|]. split; [exact Hs | exact Ho].
Defined.

(** X14.  What the mode toggle shows.  On a release event in a state with
    the mode in 0..2, the toggle block sends to the peripherals, in this
    order: the cursor to the start of the top row, the label of the new
    mode, and LOW to each of the 17 LED pins.  On a tick without the event
    it sends nothing. *)
Theorem toggle_block_output (inp : Inputs) (s : State) :
  0 <= modeNumber s <= 2 ->
  (toggle_fires inp s = true ->
   out (toggle_block inp s)
   = out s ++ [LcdSetCursor 0 0; LcdPrint (mode_label ((modeNumber s + 1) mod 3))]
       ++ leds_off_events) /\
  (toggle_fires inp s = false ->
   out (toggle_block inp s) = out s /\ pins (toggle_block inp s) = pins s).
Proof.
  intros Hm. split; intros Hf.
  - apply toggle_fires_true in Hf as [Hlow Hlatch].
    rewrite toggle_block_release, mode_step by done.
    set (s1 := lcd_setCursor 0 0 (with_modeNumber ((modeNumber s + 1) mod 3) s)).
    assert (H1 : modeNumber s1 = (modeNumber s + 1) mod 3 /\
                 out s1 = out s ++ [LcdSetCursor 0 0])
      by (subst s1; unfold lcd_setCursor; by destruct s).
    clearbody s1. destruct H1 as [Hm1 Ho1].
    rewrite print_mode_label_label by (rewrite Hm1; zlia). rewrite Hm1.
    pose proof (out_write_all_leds_low
      (lcd_print (mode_label ((modeNumber s + 1) mod 3)) s1)) as Hout.
    revert Hout.
    generalize (write_all_leds LOW
      (lcd_print (mode_label ((modeNumber s + 1) mod 3)) s1)).
    intros s2 Hout. destruct s2. cbn in *. rewrite Hout.
    unfold lcd_print. destruct s1. cbn in *. rewrite Ho1.
    by rewrite <- !app_assoc.
  - by destruct (toggle_block_no_release inp s Hf) as [-> | ->]; destruct s.
Qed.

(** The theorem on the release that takes the running stopwatch out of
    view. *)
Lemma toggle_block_output_witness :
  out (toggle_block idle stopwatch_running)
  = out stopwatch_running
    ++ [LcdSetCursor 0 0;
        LcdPrint (mode_label ((modeNumber stopwatch_running + 1) mod 3))]
    ++ leds_off_events.
Proof.
  destruct (toggle_block_output idle stopwatch_running) as [Hfire _].
  - vm_compute. split; discriminate.
  - apply Hfire. vm_compute. reflexivity.
Defined.

(** ** The clock while the set button is left alone *)

Lemma set_button_block_quiet inp s :
  setButton inp = false -> setButtonRelease s = 0 -> set_button_block inp s = s.
Proof.
  unfold set_button_block.
  destruct s, inp as [b0 b1 b2 b3 b4]. cbn. intros -> ->. reflexivity.
Qed.

Lemma toggle_block_set_fields inp s :
  isSettingTime s = 0 ->
  isSettingTime (toggle_block inp s) = 0 /\
  setButtonRelease (toggle_block inp s) = setButtonRelease s.
Proof.
  intros He.
  assert (Hs : setButtonRelease (toggle_block inp s) = setButtonRelease s).
  { destruct (toggle_block_changes inp s) as (? & ? & ? & ? & ? & ? & ->).
    by destruct s. }
  split; [|exact Hs].
  destruct (toggle_block_isSettingTime inp s) as [Hfire Hno].
  destruct (toggle_fires inp s); [by apply Hfire|].
  destruct Hno as [-> _]; done.
Qed.

Lemma loop_untouched inp s :
  isSettingTime s = 0 -> setButtonRelease s = 0 -> setButton inp = false ->
  timeOfDay (loop inp s) = count_time (timeOfDay s) /\
  isSettingTime (loop inp s) = 0 /\ setButtonRelease (loop inp s) = 0.
Proof.
  intros He Hl Hlow. split.
  - rewrite loop_timeOfDay, clock_block_timeOfDay.
    rewrite set_button_block_quiet by done. by rewrite He.
  - rewrite loop_after_toggle.
    destruct (mode_switch_changes inp (after_toggle inp s))
      as (? & ? & ? & ? & ? & ? & ? & ? & ? & ? & ? & ? & ->).
    unfold after_toggle, before_toggle.
    rewrite set_button_block_quiet by done.
    destruct (toggle_block_set_fields inp (clock_block inp s)) as [H1 H2].
    { by destruct (clock_block_control inp s) as (_ & _ & _ & ->). }
    assert (H3 : setButtonRelease (clock_block inp s) = 0).
    { destruct (clock_block_changes inp s)
        as (? & ? & ? & ? & ? & ? & ? & ? & ->). by destruct s. }
    rewrite H3 in H2. revert H1 H2.
    generalize (toggle_block inp (clock_block inp s)). by intros [].
Qed.

(** X15.  As long as editing is off, no release of the set button is
    pending and the set button stays up, the time of day advances by one
    [count_time] on every tick, whatever the other four buttons do: after
    any such run it has been through as many [count_time] as there were
    ticks. *)
Theorem clock_runs_untouched (inps : list Inputs) (s : State) :
  isSettingTime s = 0 -> setButtonRelease s = 0 ->
  Forall (fun inp => setButton inp = false) inps ->
  timeOfDay (run inps s) = Nat.iter (length inps) count_time (timeOfDay s) /\
  isSettingTime (run inps s) = 0.
Proof.
  revert s. induction inps as [|inp rest IH]; intros s He Hl Hall; [done|].
  apply Forall_cons in Hall as [Hlow Hall].
  destruct (loop_untouched inp s He Hl Hlow) as (Ht & He' & Hl').
  cbn [run length]. destruct (IH (loop inp s) He' Hl' Hall) as [-> ->].
  split; [|done]. by rewrite Ht, Nat.iter_succ_r.
Qed.

(** The theorem on a run from start-up that touches every button but the
    set button. *)
Lemma clock_runs_untouched_witness :
  timeOfDay (run [press_toggle; press_f1; idle; press_f2; press_f3] init)
  = Nat.iter 5 count_time (timeOfDay init).
Proof.
  apply (clock_runs_untouched [press_toggle; press_f1; idle; press_f2; press_f3]
           init); [reflexivity | reflexivity |].
  repeat constructor.
Defined.

(** ** The LEDs in Clock mode *)

(** X16.  A tick that ends in Clock mode with the time of day on a whole
    second ends with the LEDs showing it: read back as binary numbers, the
    three banks give its seconds and minutes modulo 64 and its hours
    modulo 32. *)
Theorem clock_mode_leds (inp : Inputs) (s : State) :
  modeNumber (loop inp s) = 0 ->
  milliseconds (timeOfDay (loop inp s)) = 0 ->
  read_bits (pins (loop inp s)) lowestSecPin 6
  = seconds (timeOfDay (loop inp s)) mod 64 /\
  read_bits (pins (loop inp s)) lowestMinPin 6
  = minutes (timeOfDay (loop inp s)) mod 64 /\
  read_bits (pins (loop inp s)) lowestHourPin 5
  = hours (timeOfDay (loop inp s)) mod 32.
Proof.
  rewrite loop_after_toggle.
  destruct (mode_switch_control inp (after_toggle inp s))
    as (-> & _ & _ & ->).
  generalize (after_toggle inp s). intros s3 Hm Hms.
  unfold mode_switch. rewrite Hm. change (0 =? 0) with true. cbv iota.
  apply led_display_read_bits. by left.
Qed.

(** The theorem on the tick that completes the first second after
    start-up. *)
Lemma clock_mode_leds_witness :
  read_bits (pins (loop idle (run (replicate 124 idle) init))) lowestSecPin 6
  = seconds (timeOfDay (loop idle (run (replicate 124 idle) init))) mod 64.
Proof.
  destruct (clock_mode_leds idle (run (replicate 124 idle) init)) as (Hs & _).
  - vm_compute. reflexivity.
  - vm_compute. reflexivity.
  - exact Hs.
Defined.

(** ** A running countdown with the buttons left alone *)

Lemma loop_timer_view s :
  timer_view s ->
  loop idle s = run_timer idle (upd_time TimeOfDay count_time s).
Proof.
  unfold timer_view. destruct s. cbn.
  intros (-> & -> & -> & -> & -> & ->). reflexivity.
Qed.

Lemma run_timer_counting s :
  isSettingTime s = 0 -> f1ButtonRelease s = 0 -> f2ButtonRelease s = 0 ->
  isTimerCounting s = 1 -> timer_sum (timer s) <> 0 ->
  run_timer idle s = timer_count s.
Proof.
  unfold run_timer, timer_buttons, timer_start_stop, timer_clear.
  destruct s. cbn. intros -> -> -> -> Hsum.
  apply Z.eqb_neq in Hsum. cbn. by rewrite Hsum.
Qed.

Lemma loop_countdown_tick s :
  timer_view s -> isTimerCounting s = 1 -> timer_sum (timer s) <> 0 ->
  timer_view (loop idle s) /\ isTimerCounting (loop idle s) = 1 /\
  timer (loop idle s) = retreat (timer s).
Proof.
  intros Hv Hc Hsum. rewrite loop_timer_view by done.
  destruct Hv as (Hm & He & Hs & Ht & H1 & H2).
  rewrite run_timer_counting by (by destruct s).
  rewrite timer_count_value.
  destruct (timer_count_changes (upd_time TimeOfDay count_time s))
    as (? & ? & ? & ->).
  unfold timer_view. by destruct s.
Qed.

Lemma countdown_run j s :
  timer_view s -> isTimerCounting s = 1 ->
  (forall i, (i < j)%nat -> timer_sum (Nat.iter i retreat (timer s)) <> 0) ->
  timer_view (run (replicate j idle) s) /\
  isTimerCounting (run (replicate j idle) s) = 1 /\
  timer (run (replicate j idle) s) = Nat.iter j retreat (timer s).
Proof.
  revert s. induction j as [|j IH]; intros s Hv Hc Hsum; [done|].
  cbn [replicate run].
  destruct (loop_countdown_tick s Hv Hc) as (Hv' & Hc' & Ht').
  { apply (Hsum 0%nat). lia. }
  destruct (IH (loop idle s) Hv' Hc') as (Hv2 & Hc2 & Ht2).
  { intros i Hi. rewrite Ht', <- Nat.iter_succ_r. apply Hsum. lia. }
  split; [done|]. split; [done|]. by rewrite Ht2, Ht', Nat.iter_succ_r.
Qed.

Lemma timer_sum_positive t :
  0 <= hours t <= 23 -> 0 <= minutes t <= 60 -> 0 <= seconds t <= 60 ->
  1 <= milliseconds t <= 1000 -> timer_sum t <> 0.
Proof.
  destruct t as [h m sec ms]. unfold timer_sum. cbn. intros Hh Hm Hs Hms.
  rewrite (int_add_id h sec) by lia.
  rewrite (int_add_id (h + sec) ms) by lia.
  rewrite int_add_id by lia. lia.
Qed.

(** X17.  In the timer view, with the countdown running at subseconds
    1000, at least one second to give and hours and minutes not
    negative, 167 ticks with every button up take exactly one second off
    the countdown and leave it running at subseconds 1000: each displayed
    second lasts 167 ticks. *)
Theorem countdown_second_of_ticks (s : State) :
  timer_view s -> isTimerCounting s = 1 ->
  milliseconds (timer s) = 1000 -> 1 <= seconds (timer s) <= 60 ->
  0 <= minutes (timer s) <= 60 -> 0 <= hours (timer s) <= 23 ->
  timer (run (replicate 167 idle) s)
  = set_seconds (seconds (timer s) - 1) (timer s) /\
  isTimerCounting (run (replicate 167 idle) s) = 1 /\
  timer_view (run (replicate 167 idle) s).
Proof.
  intros Hv Hc Hms Hs Hm Hh.
  destruct (countdown_run 167 s Hv Hc) as (Hv' & Hc' & Ht').
  { intros i Hi.
    rewrite iter_retreat_no_borrow by (unfold TICKRATE; lia).
    apply timer_sum_positive; destruct (timer s); unfold TICKRATE; cbn in *; lia. }
  rewrite Ht'. split; [|done].
  apply iter_retreat_second; lia.
Qed.

(** The theorem from the state where the timer, set to two seconds, has
    been started and shows 00:00:01 with 1000 subseconds. *)
Lemma countdown_second_of_ticks_witness :
  timer (run (replicate 167 idle) timer_two_started)
  = set_seconds (seconds (timer timer_two_started) - 1) (timer timer_two_started).
Proof.
  destruct (countdown_second_of_ticks timer_two_started) as (Ht & _).
  - vm_compute. repeat split.
  - vm_compute. reflexivity.
  - vm_compute. reflexivity.
  - vm_compute. split; discriminate.
  - vm_compute. split; discriminate.
  - vm_compute. split; discriminate.
  - exact Ht.
Defined.
